(** * The perceptive-models tutorial module (tutorial_perceptiveModels.cpp)

    A shallow embedding of [ExampleModule] (its [configure], [close],
    [getPeriod] and [updateModule] methods) and of [main].

    The module talks to the robot through YARP interfaces.  Every call
    that leaves the module is recorded as an [event] in a trace, and
    every answer that comes back is read from a [World] (start-up
    answers) or from a [Tick] (the answers available during one call of
    [updateModule]).  The object's fields are a record threaded through
    a state-and-trace monad [M].

    C++ [double] is kept abstract behind the class [DoubleOps].  The
    program runs in the instance [binary64] (IEEE 754 doubles); the
    control logic is proved once for every instance, hence for that
    one.  A second instance, [exactQ], is the arithmetic of the
    specification's formulas and is only compared with. *)

From Stdlib Require Import PrimFloat SpecFloat FloatOps FloatAxioms.
From Stdlib Require Import ZArith QArith Qabs Qreduction.
From Stdlib Require Import String Ascii List Bool Lia PeanoNat.
Import ListNotations.

Local Open Scope Z_scope.
Local Open Scope string_scope.
Local Open Scope list_scope.

(* ================================================================== *)
(** ** Doubles *)

(** The operations and literals of type [double] that the source uses:
    [+], [-], [*], [fabs], [<], and the constants [0.1], [5.0], [30.0],
    [60.0] and [1e9]. *)
Class DoubleOps (D : Type) : Type := {
  dadd : D -> D -> D;
  dsub : D -> D -> D;
  dmul : D -> D -> D;
  fabs : D -> D;
  dlt  : D -> D -> bool;
  d0_1 : D;
  d5   : D;
  d30  : D;
  d60  : D;
  d1e9 : D
}.

(** IEEE 754 binary64 with round-to-nearest-even. *)
#[export] Instance binary64 : DoubleOps PrimFloat.float := {
  dadd := PrimFloat.add;
  dsub := PrimFloat.sub;
  dmul := PrimFloat.mul;
  fabs := PrimFloat.abs;
  dlt  := PrimFloat.ltb;
  d0_1 := 0x1.999999999999ap-4%float;
  d5   := 5%float;
  d30  := 30%float;
  d60  := 60%float;
  d1e9 := 1000000000%float
}.

(** The arithmetic of the specification, which gives limits and safe
    range as reals: exact rationals, every result reduced so that equal
    numbers are equal terms.  The program does not compute in it: it
    has no rounding, no overflow, no infinity and no NaN. *)
#[export] Instance exactQ : DoubleOps Q := {
  dadd := fun x y => Qred (x + y);
  dsub := fun x y => Qred (x - y);
  dmul := fun x y => Qred (x * y);
  fabs := fun x => Qred (Qabs x);
  dlt  := fun x y => negb (Qle_bool y x);
  d0_1 := (1 # 10)%Q;
  d5   := (5 # 1)%Q;
  d30  := (30 # 1)%Q;
  d60  := (60 # 1)%Q;
  d1e9 := (1000000000 # 1)%Q
}.

(* ================================================================== *)
(** ** yarp::os::Property and ResourceFinder *)

Definition nl : string := String (ascii_of_nat 10) EmptyString.

Inductive Value : Type :=
  | VString (s : string)
  | VInt (n : Z)
  | VGroup (kv : list (string * string)).

(** A Property is a keyed list; [put] replaces an existing key. *)
Definition Property : Type := list (string * Value).

Definition put (k : string) (v : Value) (p : Property) : Property :=
  filter (fun kv => negb (fst kv =? k)) p ++ [(k, v)].

(** Modelled from the spec: [yarp::os::ResourceFinder] belongs to the
    YARP framework and is not part of the sources.  Section 6.1 lists
    the options with their defaults; the finder holds the options given
    on the command line and the defaults set before, and an option
    reads as the command line's value, else as its default. *)
Record ResourceFinder : Type := {
  rf_args     : list (string * string);
  rf_defaults : list (string * string)
}.

Fixpoint lookup (k : string) (l : list (string * string)) : option string :=
  match l with
  | [] => None
  | (k', v) :: l' => if k' =? k then Some v else lookup k l'
  end.

(** [rf.find(key).asString()]: the command line first, then the
    defaults; a missing key reads as the empty string. *)
Definition find (rf : ResourceFinder) (k : string) : string :=
  match lookup k (rf_args rf) with
  | Some v => v
  | None =>
      match lookup k (rf_defaults rf) with
      | Some v => v
      | None => ""
      end
  end.

Definition setDefault (k v : string) (rf : ResourceFinder) : ResourceFinder :=
  {| rf_args := rf_args rf;
     rf_defaults := filter (fun kv => negb (fst kv =? k)) (rf_defaults rf)
                      ++ [(k, v)] |}.

(* ================================================================== *)
(** ** The module *)

(** The values of [double *val]: [configure] points it at [&min] and
    line 239 keeps it among [&min] and [&max]. *)
Inductive Addr : Type := AddrMin | AddrMax.

Definition Addr_eqb (a b : Addr) : bool :=
  match a, b with
  | AddrMin, AddrMin | AddrMax, AddrMax => true
  | _, _ => false
  end.

Inductive ModelKind : Type := SpringyFingersModel | TactileFingersModel.

(** What a node of the model answers during one tick. *)
Record NodeReading : Type := {
  node_getName        : string;
  node_getSensorsData : string;
  node_getOutput      : string
}.

Section Module_.

Context {D : Type} {ops : DoubleOps D}.

(** Calls that leave the module, in program order. *)
Inductive event : Type :=
  | Printf (line : string)
  | PrintfOptions (header : string) (opts : Property)
  | PrintfReport (name data out : string)
  | DriverOpen (opts : Property)
  | DriverView (iface : string)
  | DriverClose
  | GetLimits (j : Z)
  | NewModel (k : ModelKind)
  | DeleteModel
  | FromProperty (opts : Property)
  | ToProperty
  | Calibrate (opts : Property)
  | SetRefAcceleration (j : Z) (a : D)
  | SetRefSpeed (j : Z) (v : D)
  | PositionMove (j : Z) (target : D)
  | GetNode (name : string)
  | GetEncoder (j : Z).

(** Answers of the environment that do not depend on the tick. *)
Record World : Type := {
  w_checkNetwork : bool;
  w_driver_open  : Property -> bool;
  w_getLimits    : Z -> D * D;
  w_fromProperty : ModelKind -> Property -> bool;
  w_toProperty   : Property
}.

(** Answers available during one call of [updateModule]. *)
Record Tick : Type := {
  t_calibrate  : bool;
  t_getNode    : string -> option NodeReading;
  t_getEncoder : Z -> D
}.

(** The fields of [ExampleModule] (the driver and the interface
    pointers live in the environment). *)
Record ExampleModule : Type := {
  model      : option ModelKind;
  calibrate  : bool;
  fingerName : string;
  min        : D;
  max        : D;
  val        : Addr;
  joint      : Z
}.

(** [*val] *)
Definition deref (s : ExampleModule) (p : Addr) : D :=
  match p with
  | AddrMin => min s
  | AddrMax => max s
  end.

(** *** State and trace monad *)

Definition M (A : Type) : Type :=
  ExampleModule -> A * ExampleModule * list event.

Definition ret {A} (a : A) : M A := fun s => (a, s, []).

Definition bind {A B} (m : M A) (k : A -> M B) : M B :=
  fun s =>
    let '(a, s1, tr1) := m s in
    let '(b, s2, tr2) := k a s1 in
    (b, s2, tr1 ++ tr2).

Definition get : M ExampleModule := fun s => (s, s, []).
Definition modify (f : ExampleModule -> ExampleModule) : M unit :=
  fun s => (tt, f s, []).
Definition emit (e : event) : M unit := fun s => (tt, s, [e]).

Notation "x <- m ;; k" := (bind m (fun x => k))
  (at level 61, m at next level, right associativity).
Notation "m ;; k" := (bind m (fun _ => k))
  (at level 61, right associativity).

Definition result {A} (r : A * ExampleModule * list event) : A := fst (fst r).
Definition state {A} (r : A * ExampleModule * list event) : ExampleModule :=
  snd (fst r).
Definition trace {A} (r : A * ExampleModule * list event) : list event := snd r.

(** Field assignments. *)
Definition set_model (m : option ModelKind) : M unit :=
  modify (fun s => {| model := m; calibrate := calibrate s;
                      fingerName := fingerName s; min := min s; max := max s;
                      val := val s; joint := joint s |}).
Definition set_calibrate (b : bool) : M unit :=
  modify (fun s => {| model := model s; calibrate := b;
                      fingerName := fingerName s; min := min s; max := max s;
                      val := val s; joint := joint s |}).
Definition set_fingerName (f : string) : M unit :=
  modify (fun s => {| model := model s; calibrate := calibrate s;
                      fingerName := f; min := min s; max := max s;
                      val := val s; joint := joint s |}).
Definition set_min (x : D) : M unit :=
  modify (fun s => {| model := model s; calibrate := calibrate s;
                      fingerName := fingerName s; min := x; max := max s;
                      val := val s; joint := joint s |}).
Definition set_max (x : D) : M unit :=
  modify (fun s => {| model := model s; calibrate := calibrate s;
                      fingerName := fingerName s; min := min s; max := x;
                      val := val s; joint := joint s |}).
Definition set_val (p : Addr) : M unit :=
  modify (fun s => {| model := model s; calibrate := calibrate s;
                      fingerName := fingerName s; min := min s; max := max s;
                      val := p; joint := joint s |}).
Definition set_joint (j : Z) : M unit :=
  modify (fun s => {| model := model s; calibrate := calibrate s;
                      fingerName := fingerName s; min := min s; max := max s;
                      val := val s; joint := j |}).

(** *** Calls to the environment *)

Definition printf (line : string) : M unit := emit (Printf line).

Definition driver_open (w : World) (opts : Property) : M bool :=
  emit (DriverOpen opts) ;; ret (w_driver_open w opts).

Definition driver_view (iface : string) : M unit := emit (DriverView iface).

Definition driver_close : M unit := emit DriverClose.

Definition ilim_getLimits (w : World) (j : Z) : M (D * D) :=
  emit (GetLimits j) ;; ret (w_getLimits w j).

(** [model->fromProperty(options)], answered by the model that [model]
    points to. *)
Definition model_fromProperty (w : World) (opts : Property) : M bool :=
  s <- get ;;
  emit (FromProperty opts) ;;
  ret (match model s with
       | Some k => w_fromProperty w k opts
       | None => false
       end).

Definition model_toProperty (w : World) : M Property :=
  emit ToProperty ;; ret (w_toProperty w).

Definition model_calibrate (t : Tick) (opts : Property) : M bool :=
  emit (Calibrate opts) ;; ret (t_calibrate t).

Definition model_getNode (t : Tick) (name : string) : M (option NodeReading) :=
  emit (GetNode name) ;; ret (t_getNode t name).

Definition ipos_setRefAcceleration (j : Z) (a : D) : M unit :=
  emit (SetRefAcceleration j a).

Definition ipos_setRefSpeed (j : Z) (v : D) : M unit :=
  emit (SetRefSpeed j v).

Definition ipos_positionMove (j : Z) (target : D) : M unit :=
  emit (PositionMove j target).

Definition ienc_getEncoder (t : Tick) (j : Z) : M D :=
  emit (GetEncoder j) ;; ret (t_getEncoder t j).

(** *** ExampleModule::ExampleModule *)

(** The constructor initialises [calibrate] only; the other fields keep
    whatever the memory held ([garbage]). *)
Definition ExampleModule_ctor (garbage : ExampleModule) : ExampleModule :=
  {| model := model garbage; calibrate := true;
     fingerName := fingerName garbage; min := min garbage;
     max := max garbage; val := val garbage; joint := joint garbage |}.

(** *** ExampleModule::configure *)

(** Lines 122-136: the finger selects the joint; an unknown finger
    prints a message and makes [configure] return false. *)
Definition select_joint : M bool :=
  s <- get ;;
  if fingerName s =? "thumb" then set_joint 10 ;; ret true
  else if fingerName s =? "index" then set_joint 12 ;; ret true
  else if fingerName s =? "middle" then set_joint 14 ;; ret true
  else if fingerName s =? "ring" then set_joint 15 ;; ret true
  else if fingerName s =? "little" then set_joint 15 ;; ret true
  else printf ("unknown finger!" ++ nl) ;; ret false.

Definition driverOpt (name robot hand : string) : Property :=
  put "local" (VString ("/" ++ name))
    (put "remote" (VString ("/" ++ robot ++ "/" ++ hand ++ "_arm"))
       [("device", VString "remote_controlboard")]).

Definition genOpt (name robot hand modelType : string) : Property :=
  put "verbose" (VInt 1)
    (put "type" (VString hand)
       (put "robot" (VString robot)
          (put "name" (VString (name ++ "/" ++ modelType)) []))).

Definition options (name robot hand modelType : string) : Property :=
  genOpt name robot hand modelType ++
  [ ("thumb",  VGroup [("name", "thumb")]);
    ("index",  VGroup [("name", "index")]);
    ("middle", VGroup [("name", "middle")]);
    ("ring",   VGroup [("name", "ring")]);
    ("little", VGroup [("name", "little")]) ].

(** Lines 150-154: the limits of the joint, drawn in by a tenth of
    their span at each end; [val] points at the lower one. *)
Definition read_limits (w : World) : M unit :=
  s <- get ;;
  lim <- ilim_getLimits w (joint s) ;;
  set_min (fst lim) ;;
  set_max (snd lim) ;;
  s <- get ;;
  let margin := dmul d0_1 (dsub (max s) (min s)) in
  set_min (dadd (min s) margin) ;;
  s <- get ;;
  set_max (dsub (max s) margin) ;;
  set_val AddrMin.

(** Lines 171-179: the model is created by type; an unknown type
    prints a message and makes [configure] return false. *)
Definition new_model (modelType : string) : M bool :=
  if modelType =? "springy" then
    emit (NewModel SpringyFingersModel) ;;
    set_model (Some SpringyFingersModel) ;; ret true
  else if modelType =? "tactile" then
    emit (NewModel TactileFingersModel) ;;
    set_model (Some TactileFingersModel) ;; ret true
  else
    printf ("unknown model type!" ++ nl) ;; ret false.

Definition configure (rf : ResourceFinder) (w : World) : M bool :=
  let name := find rf "name" in
  let robot := find rf "robot" in
  let hand := find rf "hand" in
  let modelType := find rf "modelType" in
  set_fingerName (find rf "finger") ;;
  known <- select_joint ;;
  if negb known then ret false else
  opened <- driver_open w (driverOpt name robot hand) ;;
  if negb opened then ret false else
  driver_view "ipos" ;;
  driver_view "ienc" ;;
  driver_view "ilim" ;;
  read_limits w ;;
  emit (PrintfOptions "configuring options: "
          (options name robot hand modelType)) ;;
  created <- new_model modelType ;;
  if negb created then ret false else
  loaded <- model_fromProperty w (options name robot hand modelType) ;;
  if loaded then ret true
  else emit DeleteModel ;; ret false.

(** *** ExampleModule::close *)

Definition close (w : World) : M bool :=
  driver_close ;;
  opts <- model_toProperty w ;;
  emit (PrintfOptions "model options: " opts) ;;
  ret true.

(** *** ExampleModule::getPeriod *)

Definition getPeriod : D := d0_1.

(** *** ExampleModule::updateModule *)

(** Line 239: [val==&min?val=&max:val=&min] *)
Definition toggle : M unit :=
  s <- get ;;
  if Addr_eqb (val s) AddrMin then set_val AddrMax else set_val AddrMin.

Definition updateModule (t : Tick) : M bool :=
  s <- get ;;
  (if calibrate s then
     _ <- model_calibrate t (put "finger" (VString (fingerName s)) []) ;;
     set_calibrate false ;;
     ipos_setRefAcceleration (joint s) d1e9 ;;
     (if (fingerName s =? "ring") || (fingerName s =? "little")
      then ipos_setRefSpeed (joint s) d60
      else ipos_setRefSpeed (joint s) d30) ;;
     ipos_positionMove (joint s) (deref s (val s))
   else
     finger <- model_getNode t (fingerName s) ;;
     match finger with
     | Some node =>
         emit (PrintfReport (node_getName node) (node_getSensorsData node)
                 (node_getOutput node))
     | None => ret tt
     end ;;
     fb <- ienc_getEncoder t (joint s) ;;
     if dlt (fabs (dsub (deref s (val s)) fb)) d5 then
       toggle ;;
       s' <- get ;;
       ipos_positionMove (joint s') (deref s' (val s'))
     else ret tt) ;;
  ret true.

(** *** RFModule::runModule and main *)

(** The periodic loop of the framework: one [updateModule] per tick,
    for as long as it returns true; [ts] holds the ticks that arrive
    before the module is asked to stop. *)
Fixpoint run_loop (ts : list Tick) : M unit :=
  match ts with
  | [] => ret tt
  | t :: ts' =>
      go_on <- updateModule t ;;
      if go_on then run_loop ts' else ret tt
  end.

(** Modelled from the spec: [RFModule::runModule] belongs to the YARP
    framework and is not part of the sources.  Section 6.1 gives the
    exit codes: 2 for a configuration error, 0 for a normal shutdown;
    the loop between them calls [updateModule] until it returns false
    or the module is stopped, then [close]. *)
Definition runModule (rf : ResourceFinder) (w : World) (ts : list Tick)
  : M Z :=
  configured <- configure rf w ;;
  if negb configured then ret 2
  else run_loop ts ;; close w ;; ret 0.

(** The defaults set by [main] before the command line is read. *)
Definition main_rf (args : list (string * string)) : ResourceFinder :=
  setDefault "finger" "index"
    (setDefault "modelType" "springy"
       (setDefault "hand" "right"
          (setDefault "robot" "icub"
             (setDefault "name" "percex"
                {| rf_args := args; rf_defaults := [] |})))).

Definition main (args : list (string * string)) (w : World) (ts : list Tick)
  (garbage : ExampleModule) : Z * ExampleModule * list event :=
  if negb (w_checkNetwork w) then
    (1, garbage, [Printf ("YARP server not available!" ++ nl)])
  else
    runModule (main_rf args) w ts (ExampleModule_ctor garbage).

(** The targets of the position moves of a trace, in order. *)
Fixpoint moves (tr : list event) : list D :=
  match tr with
  | [] => []
  | PositionMove _ x :: tr' => x :: moves tr'
  | _ :: tr' => moves tr'
  end.

(** The joints named by the position moves of a trace. *)
Fixpoint moved_joints (tr : list event) : list Z :=
  match tr with
  | [] => []
  | PositionMove j _ :: tr' => j :: moved_joints tr'
  | _ :: tr' => moved_joints tr'
  end.

(** How many times the model was calibrated in a trace. *)
Fixpoint calibrations (tr : list event) : nat :=
  match tr with
  | [] => 0%nat
  | Calibrate _ :: tr' => S (calibrations tr')
  | _ :: tr' => calibrations tr'
  end.

(** [n] addresses starting from [a], each the other one than before. *)
Definition flip (a : Addr) : Addr :=
  match a with AddrMin => AddrMax | AddrMax => AddrMin end.

Fixpoint alternate (a : Addr) (n : nat) : list Addr :=
  match n with
  | O => []
  | S n' => a :: alternate (flip a) n'
  end.

(** The speed chosen on line 219. *)
Definition cruise (f : string) : D :=
  if (f =? "ring") || (f =? "little") then d60 else d30.

(** The test of line 237. *)
Definition reached (s : ExampleModule) (t : Tick) : bool :=
  dlt (fabs (dsub (deref s (val s)) (t_getEncoder t (joint s)))) d5.

(** The line printed on lines 228-234, if the model has the node. *)
Definition report (t : Tick) (f : string) : list event :=
  match t_getNode t f with
  | Some node => [PrintfReport (node_getName node) (node_getSensorsData node)
                    (node_getOutput node)]
  | None => []
  end.

End Module_.

Arguments event D : clear implicits.
Arguments World D : clear implicits.
Arguments Tick D : clear implicits.
Arguments ExampleModule D : clear implicits.
Arguments M D A : clear implicits.

(** The closed sets of section 3 and 6.1 of the specification. *)
Definition FingerId : list string :=
  ["thumb"; "index"; "middle"; "ring"; "little"].

Definition finger_joint_table : list (string * Z) :=
  [("thumb", 10); ("index", 12); ("middle", 14); ("ring", 15); ("little", 15)].

(** SafeRange of section 3: [lo = min + 0.1 (max - min)] and
    [hi = max - 0.1 (max - min)], in the arithmetic of the instance. *)
Definition safe_lo {D} {ops : DoubleOps D} (mn mx : D) : D :=
  dadd mn (dmul d0_1 (dsub mx mn)).

Definition safe_hi {D} {ops : DoubleOps D} (mn mx : D) : D :=
  dsub mx (dmul d0_1 (dsub mx mn)).

(* ================================================================== *)
(** ** Summaries of [configure] and of a run of scanning ticks *)

Section Summaries.

Context {D : Type} {ops : DoubleOps D}.

(** What holds after a successful [configure]. *)
Record configured (rf : ResourceFinder) (w : World D) (s : ExampleModule D)
  (r : bool * ExampleModule D * list (event D)) : Prop := {
  cfg_calibrate : calibrate (state r) = calibrate s;
  cfg_finger    : fingerName (state r) = find rf "finger";
  cfg_joint     : In (find rf "finger", joint (state r)) finger_joint_table;
  cfg_min       : min (state r) =
                  safe_lo (fst (w_getLimits w (joint (state r))))
                          (snd (w_getLimits w (joint (state r))));
  cfg_max       : max (state r) =
                  safe_hi (fst (w_getLimits w (joint (state r))))
                          (snd (w_getLimits w (joint (state r))));
  cfg_val       : val (state r) = AddrMin
}.

(** What a run of scanning ticks preserves and produces. *)
Record scan_summary (s : ExampleModule D)
  (r : unit * ExampleModule D * list (event D)) : Prop := {
  scan_calibrate  : calibrate (state r) = false;
  scan_min        : min (state r) = min s;
  scan_max        : max (state r) = max s;
  scan_joint      : joint (state r) = joint s;
  scan_finger     : fingerName (state r) = fingerName s;
  scan_no_calib   : calibrations (trace r) = 0%nat;
  scan_joints     : forall j, In j (moved_joints (trace r)) -> j = joint s;
  scan_alternates :
    moves (trace r) =
    map (deref s) (alternate (flip (val s)) (length (moves (trace r))))
}.

End Summaries.

(* ================================================================== *)
(** ** Stubs for the scenarios of section 8 *)

Definition S1_args : list (string * string) :=
  [("finger", "index"); ("modelType", "tactile"); ("hand", "right")].

Definition S2_args : list (string * string) := [("finger", "ring")].

Definition S3_args : list (string * string) := [("finger", "pinky")].

(** An adapter that opens, reports limits (0, 90) for every joint, and
    a model that loads. *)
Definition stub64 : World float :=
  {| w_checkNetwork := true;
     w_driver_open  := fun _ => true;
     w_getLimits    := fun _ => (0%float, 90%float);
     w_fromProperty := fun _ _ => true;
     w_toProperty   := [] |}.

(** Memory before the constructor runs. *)
Definition fresh64 : ExampleModule float :=
  {| model := None; calibrate := false; fingerName := "";
     min := 0%float; max := 0%float; val := AddrMax; joint := 0 |}.

(** A tick whose model has no node and whose encoder reads [fb]. *)
Definition tick64 (calibrated : bool) (fb : float) : Tick float :=
  {| t_calibrate := calibrated;
     t_getNode := fun _ => None;
     t_getEncoder := fun _ => fb |}.

(** A tick whose model has a node for every finger. *)
Definition tick_node64 (calibrated : bool) (fb : float) : Tick float :=
  {| t_calibrate := calibrated;
     t_getNode := fun name =>
       Some {| node_getName := name; node_getSensorsData := "(0.0 0.0)";
               node_getOutput := "0.0" |};
     t_getEncoder := fun _ => fb |}.

Definition ticks64 : list (Tick float) :=
  [ tick64 true 45%float; tick64 true 8.5%float; tick64 true 20%float;
    tick64 true 80%float ].

(** The module of scenario S1 after its first tick. *)
Definition scanning64 : ExampleModule float :=
  {| model := Some TactileFingersModel; calibrate := false;
     fingerName := "index"; min := 9%float; max := 81%float;
     val := AddrMin; joint := 12 |}.

(** The value of [modelType] that creates each kind of model. *)
Definition ModelKind_name (k : ModelKind) : string :=
  match k with
  | SpringyFingersModel => "springy"
  | TactileFingersModel => "tactile"
  end.

(* ================================================================== *)
(** ** Observations on traces *)

Section Observations.

Context {D : Type} {ops : DoubleOps D}.

(** The events that reach the motor side of the arm: the encoder reads
    and the commands of the position control. *)
Definition is_motor (e : event D) : bool :=
  match e with
  | SetRefAcceleration _ _ | SetRefSpeed _ _ | PositionMove _ _
  | GetEncoder _ => true
  | _ => false
  end.

Definition motor (tr : list (event D)) : list (event D) := filter is_motor tr.

(** The test of line 237 for a target [x] and an encoder reading [fb]. *)
Definition within5 (x fb : D) : bool := dlt (fabs (dsub x fb)) d5.

(** Two module states that the motor side cannot tell apart: they may
    differ in the finger name and the model, as long as the name
    selects the same speed. *)
Definition same_motion (s1 s2 : ExampleModule D) : Prop :=
  calibrate s1 = calibrate s2 /\ min s1 = min s2 /\ max s1 = max s2 /\
  val s1 = val s2 /\ joint s1 = joint s2 /\
  cruise (fingerName s1) = cruise (fingerName s2).

End Observations.

(** Further stubs: an adapter that does not open, a model that does
    not load, and a scanning module on a safe range of width 8. *)
Definition stub_closed64 : World float :=
  {| w_checkNetwork := true;
     w_driver_open  := fun _ => false;
     w_getLimits    := fun _ => (0%float, 90%float);
     w_fromProperty := fun _ _ => true;
     w_toProperty   := [] |}.

Definition stub_noload64 : World float :=
  {| w_checkNetwork := true;
     w_driver_open  := fun _ => true;
     w_getLimits    := fun _ => (0%float, 90%float);
     w_fromProperty := fun _ _ => false;
     w_toProperty   := [] |}.

Definition narrow64 : ExampleModule float :=
  {| model := Some SpringyFingersModel; calibrate := false;
     fingerName := "index"; min := 1%float; max := 9%float;
     val := AddrMin; joint := 12 |}.

(** The module of scenario S1 before its first tick. *)
Definition calibrating64 : ExampleModule float :=
  {| model := Some TactileFingersModel; calibrate := true;
     fingerName := "index"; min := 9%float; max := 81%float;
     val := AddrMin; joint := 12 |}.

(** The rational number that a finite double stands for. *)
Definition binary64_value (x : float) : option Q :=
  match Prim2SF x with
  | S754_zero _ => Some 0%Q
  | S754_finite sign m e =>
      Some (Qred ((if sign then Zneg m # 1 else Zpos m # 1) * Qpower 2 e))
  | S754_infinity _ | S754_nan => None
  end.

(** [p.find(k)] on a property. *)
Fixpoint Property_find (k : string) (p : Property) : option Value :=
  match p with
  | [] => None
  | (k', v) :: p' => if k' =? k then Some v else Property_find k p'
  end.

(** An adapter that reports limits (0, 1), one that reports limits
    (-2^1023, 2^1023), and one that opens only on the ports of the two
    arms of the robot. *)
Definition stub_unit64 : World float :=
  {| w_checkNetwork := true;
     w_driver_open  := fun _ => true;
     w_getLimits    := fun _ => (0%float, 1%float);
     w_fromProperty := fun _ _ => true;
     w_toProperty   := [] |}.

Definition stub_huge64 : World float :=
  {| w_checkNetwork := true;
     w_driver_open  := fun _ => true;
     w_getLimits    := fun _ => ((-0x1p1023)%float, 0x1p1023%float);
     w_fromProperty := fun _ _ => true;
     w_toProperty   := [] |}.

Definition opens_on_arms (o : Property) : bool :=
  match Property_find "remote" o with
  | Some (VString r) => (r =? "/icub/left_arm") || (r =? "/icub/right_arm")
  | _ => false
  end.

Definition stub_arms64 : World float :=
  {| w_checkNetwork := true;
     w_driver_open  := opens_on_arms;
     w_getLimits    := fun _ => (0%float, 90%float);
     w_fromProperty := fun _ _ => true;
     w_toProperty   := [] |}.

(* ================================================================== *)
(** ** Equations of the two branches of [updateModule] *)

Section Ticks.

Context {D : Type} {ops : DoubleOps D}.

Lemma updateModule_calibrating (s : ExampleModule D) (t : Tick D) :
  calibrate s = true ->
  updateModule t s =
  (true, state (set_calibrate false s),
   [ Calibrate [("finger", VString (fingerName s))];
     SetRefAcceleration (joint s) d1e9;
     SetRefSpeed (joint s) (cruise (fingerName s));
     PositionMove (joint s) (deref s (val s)) ]).
Proof.
  intros Hc. unfold updateModule, bind, get, cruise. rewrite Hc.
  destruct ((fingerName s =? "ring") || (fingerName s =? "little"));
    reflexivity.
Qed.

Lemma updateModule_scanning (s : ExampleModule D) (t : Tick D) :
  calibrate s = false ->
  updateModule t s =
  (true,
   (if reached s t then state (set_val (flip (val s)) s) else s),
   GetNode (fingerName s) :: report t (fingerName s)
     ++ GetEncoder (joint s)
     :: (if reached s t then [PositionMove (joint s) (deref s (flip (val s)))]
         else [])).
Proof.
  intros Hc. unfold updateModule, bind, get, reached, report. rewrite Hc.
  unfold model_getNode, bind, emit, ret.
  destruct (t_getNode t (fingerName s)) as [node|];
    cbn [ienc_getEncoder bind emit ret app];
    destruct (dlt _ _); try reflexivity;
    destruct s as [m c f mn mx [|] j]; reflexivity.
Qed.

End Ticks.

(* ================================================================== *)
(** ** Traces *)

Section Traces.

Context {D : Type} {ops : DoubleOps D}.

Lemma moves_app (a b : list (event D)) : moves (a ++ b) = moves a ++ moves b.
Proof.
  induction a as [|e a IH]; [reflexivity|].
  destruct e; cbn [app moves]; rewrite IH; reflexivity.
Qed.

Lemma calibrations_app (a b : list (event D)) :
  calibrations (a ++ b) = (calibrations a + calibrations b)%nat.
Proof.
  induction a as [|e a IH]; [reflexivity|].
  destruct e; cbn [app calibrations]; rewrite IH; reflexivity.
Qed.

Lemma moves_report (t : Tick D) (f : string) : moves (report t f) = [].
Proof. unfold report. destruct (t_getNode t f); reflexivity. Qed.

Lemma calibrations_report (t : Tick D) (f : string) :
  calibrations (report t f) = 0%nat.
Proof. unfold report. destruct (t_getNode t f); reflexivity. Qed.

Lemma In_moves (j : Z) (x : D) (tr : list (event D)) :
  In (PositionMove j x) tr -> In x (moves tr).
Proof.
  induction tr as [|e tr IH]; [intros []|].
  intros [He|Hin].
  - subst e. left. reflexivity.
  - destruct e; cbn [moves]; try (apply IH; exact Hin).
    right. apply IH. exact Hin.
Qed.

Lemma moved_joints_app (a b : list (event D)) :
  moved_joints (a ++ b) = moved_joints a ++ moved_joints b.
Proof.
  induction a as [|e a IH]; [reflexivity|].
  destruct e; cbn [app moved_joints]; rewrite IH; reflexivity.
Qed.

Lemma moved_joints_report (t : Tick D) (f : string) :
  moved_joints (report t f) = [].
Proof. unfold report. destruct (t_getNode t f); reflexivity. Qed.

Lemma In_moved_joints (j : Z) (x : D) (tr : list (event D)) :
  In (PositionMove j x) tr -> In j (moved_joints tr).
Proof.
  induction tr as [|e tr IH]; [intros []|].
  intros [He|Hin].
  - subst e. left. reflexivity.
  - destruct e; cbn [moved_joints]; try (apply IH; exact Hin).
    right. apply IH. exact Hin.
Qed.

Lemma alternate_length (a : Addr) (n : nat) : length (alternate a n) = n.
Proof.
  revert a. induction n as [|n IH]; intros a; [reflexivity|].
  cbn [alternate length]. rewrite IH. reflexivity.
Qed.

Lemma flip_flip (a : Addr) : flip (flip a) = a.
Proof. destruct a; reflexivity. Qed.

Lemma flip_neq (a : Addr) : flip a <> a.
Proof. destruct a; discriminate. Qed.

End Traces.

(* ================================================================== *)
(** ** The periodic loop *)

Section Loop.

Context {D : Type} {ops : DoubleOps D}.

Lemma run_loop_scanning (ts : list (Tick D)) :
  forall s : ExampleModule D,
    calibrate s = false -> scan_summary s (run_loop ts s).
Proof.
  induction ts as [|t ts IH]; intros s Hc.
  - constructor; try reflexivity; try exact Hc. intros j [].
  - cbn [run_loop]. unfold bind at 1.
    rewrite (updateModule_scanning s t Hc).
    set (s1 := if reached s t then state (set_val (flip (val s)) s) else s).
    assert (Hc1 : calibrate s1 = false)
      by (subst s1; destruct (reached s t); exact Hc).
    specialize (IH s1 Hc1).
    destruct (run_loop ts s1) as [[u s2] tr2] eqn:Hrun.
    destruct IH as [I1 I2 I3 I4 I5 I6 I7 I8].
    unfold state, trace in *; cbn [fst snd] in *.
    assert (Hmin : min s1 = min s)
      by (subst s1; destruct (reached s t); reflexivity).
    assert (Hmax : max s1 = max s)
      by (subst s1; destruct (reached s t); reflexivity).
    assert (Hj : joint s1 = joint s)
      by (subst s1; destruct (reached s t); reflexivity).
    assert (Hf : fingerName s1 = fingerName s)
      by (subst s1; destruct (reached s t); reflexivity).
    assert (Hd : forall p, deref s1 p = deref s p)
      by (intros p; unfold deref; rewrite Hmin, Hmax; reflexivity).
    constructor; unfold state, trace; cbn [fst snd].
    + exact I1.
    + congruence.
    + congruence.
    + congruence.
    + congruence.
    + cbn [app calibrations]. rewrite !calibrations_app, calibrations_report.
      cbn [calibrations]. destruct (reached s t); cbn [calibrations app];
        rewrite I6; reflexivity.
    + intros j. cbn [app moved_joints].
      rewrite !moved_joints_app, moved_joints_report. cbn [app moved_joints].
      destruct (reached s t); cbn [moved_joints app].
      * intros [Hj'|Hin]; [symmetry; exact Hj'|].
        rewrite <- Hj. apply I7. exact Hin.
      * intros Hin. rewrite <- Hj. apply I7. exact Hin.
    + cbn [app moves]. rewrite !moves_app, moves_report. cbn [app moves].
      subst s1. destruct (reached s t); cbn [moves app length alternate map].
      * f_equal. rewrite I8 at 1. cbn [val state set_val modify snd fst].
        apply map_ext. exact Hd.
      * exact I8.
Qed.

(** The first tick calibrates and commands [*val]; the rest scans. *)
Lemma run_loop_first (t : Tick D) (ts : list (Tick D)) (s : ExampleModule D) :
  calibrate s = true ->
  run_loop (t :: ts) s =
  (tt, state (run_loop ts (state (set_calibrate false s))),
   trace (updateModule t s)
     ++ trace (run_loop ts (state (set_calibrate false s)))).
Proof.
  intros Hc. cbn [run_loop]. unfold bind at 1.
  rewrite (updateModule_calibrating s t Hc).
  destruct (run_loop ts _) as [[[] s2] tr2]. reflexivity.
Qed.

(** [updateModule] never asks the loop to stop. *)
Lemma updateModule_true (t : Tick D) (s : ExampleModule D) :
  result (updateModule t s) = true.
Proof.
  destruct (calibrate s) eqn:Hc.
  - rewrite (updateModule_calibrating s t Hc). reflexivity.
  - rewrite (updateModule_scanning s t Hc). reflexivity.
Qed.

Lemma run_loop_cons (t : Tick D) (ts : list (Tick D)) (s : ExampleModule D) :
  run_loop (t :: ts) s =
  (tt, state (run_loop ts (state (updateModule t s))),
   trace (updateModule t s) ++ trace (run_loop ts (state (updateModule t s)))).
Proof.
  cbn [run_loop]. unfold bind.
  pose proof (updateModule_true t s) as Ht.
  destruct (updateModule t s) as [[b s1] tr1].
  unfold result in Ht; cbn [fst] in Ht. subst b.
  unfold state, trace; cbn [fst snd].
  destruct (run_loop ts s1) as [[[] s2] tr2]. reflexivity.
Qed.

Lemma run_loop_app (ts1 ts2 : list (Tick D)) :
  forall s : ExampleModule D,
    run_loop (ts1 ++ ts2) s =
    (tt, state (run_loop ts2 (state (run_loop ts1 s))),
     trace (run_loop ts1 s) ++ trace (run_loop ts2 (state (run_loop ts1 s)))).
Proof.
  induction ts1 as [|t ts1 IH]; intros s.
  - cbn [app run_loop]. unfold ret, state, trace. cbn [fst snd app].
    destruct (run_loop ts2 s) as [[[] s2] tr2]. reflexivity.
  - cbn [app]. rewrite !run_loop_cons, IH.
    unfold state, trace; cbn [fst snd]. rewrite app_assoc. reflexivity.
Qed.

End Loop.

(* ================================================================== *)
(** ** [configure] *)

(** Unfold [configure] down to its tests, then take every branch. *)
Ltac run_configure :=
  cbv [configure select_joint read_limits new_model driver_open
       driver_view ilim_getLimits model_fromProperty set_fingerName
       set_joint set_min set_max set_val set_model printf bind get modify
       emit ret result state trace fst snd negb app fingerName joint min
       max val calibrate model moves calibrations moved_joints].

Ltac split_tests :=
  repeat match goal with
         | |- context [if (if ?c then _ else _) then _ else _] =>
             let E := fresh "E" in destruct c eqn:E
         | |- context [if ?c then _ else _] =>
             let E := fresh "E" in destruct c eqn:E
         | |- context [let (_, _) := ?p in _] =>
             let E := fresh "L" in destruct p eqn:E
         end.

Section Configure.

Context {D : Type} {ops : DoubleOps D}.

(** [configure] neither calibrates nor moves the joint. *)
Lemma configure_quiet (rf : ResourceFinder) (w : World D)
  (s : ExampleModule D) :
  moves (trace (configure rf w s)) = [] /\
  calibrations (trace (configure rf w s)) = 0%nat.
Proof.
  run_configure. split_tests; split; reflexivity.
Qed.

Lemma finger_eqb_table (f : string) (j : Z) :
  In (f, j) finger_joint_table <->
  (f =? "thumb") = true /\ j = 10 \/
  (f =? "index") = true /\ j = 12 \/
  (f =? "middle") = true /\ j = 14 \/
  (f =? "ring") = true /\ j = 15 \/
  (f =? "little") = true /\ j = 15.
Proof.
  unfold finger_joint_table. cbn [In]. rewrite !String.eqb_eq.
  split.
  - intros [H|[H|[H|[H|[H|[]]]]]]; injection H as H1 H2; subst f j; tauto.
  - intros [[-> ->] | [[-> ->] | [[-> ->] | [[-> ->] | [-> ->]]]]]; tauto.
Qed.

Lemma finger_eqb_known (f : string) :
  In f FingerId <->
  (f =? "thumb") = true \/ (f =? "index") = true \/ (f =? "middle") = true \/
  (f =? "ring") = true \/ (f =? "little") = true.
Proof.
  unfold FingerId. cbn [In]. rewrite !String.eqb_eq.
  split.
  - intros [H|[H|[H|[H|[H|[]]]]]]; subst f; tauto.
  - intros [-> | [-> | [-> | [-> | ->]]]]; tauto.
Qed.

Lemma configure_ok (rf : ResourceFinder) (w : World D) (s : ExampleModule D) :
  result (configure rf w s) = true ->
  configured rf w s (configure rf w s).
Proof.
  intros H. revert H. run_configure. split_tests; intros H;
    try discriminate H;
    (constructor; run_configure; try reflexivity;
     try (apply finger_eqb_table; tauto);
     unfold safe_lo, safe_hi;
     repeat match goal with
            | L : w_getLimits _ _ = _ |- _ => rewrite L; clear L
            end; reflexivity).
Qed.

End Configure.

(* ================================================================== *)
(** ** Sessions *)

Section Session.

Context {D : Type} {ops : DoubleOps D}.

Lemma runModule_rejected (rf : ResourceFinder) (w : World D)
  (ts : list (Tick D)) (s : ExampleModule D) :
  result (configure rf w s) = false ->
  runModule rf w ts s = (2, state (configure rf w s), trace (configure rf w s)).
Proof.
  unfold runModule, bind, result, state, trace.
  destruct (configure rf w s) as [[b s1] tr1]. cbn [fst snd].
  intros ->. cbn [negb ret]. rewrite app_nil_r. reflexivity.
Qed.

Lemma runModule_accepted (rf : ResourceFinder) (w : World D)
  (ts : list (Tick D)) (s : ExampleModule D) :
  result (configure rf w s) = true ->
  runModule rf w ts s =
  (0, state (run_loop ts (state (configure rf w s))),
   trace (configure rf w s)
     ++ trace (run_loop ts (state (configure rf w s)))
     ++ [DriverClose; ToProperty;
         PrintfOptions "model options: " (w_toProperty w)]).
Proof.
  unfold runModule, bind, result, state, trace.
  destruct (configure rf w s) as [[b s1] tr1]. cbn [fst snd].
  intros ->. cbn [negb].
  destruct (run_loop ts s1) as [[[] s2] tr2]. reflexivity.
Qed.

Lemma main_online (args : list (string * string)) (w : World D)
  (ts : list (Tick D)) (g : ExampleModule D) :
  w_checkNetwork w = true ->
  main args w ts g = runModule (main_rf args) w ts (ExampleModule_ctor g).
Proof. intros H. unfold main. rewrite H. reflexivity. Qed.

End Session.

(* ================================================================== *)
(** ** Configuration claims *)

Section ConfigurationClaims.

Context {D : Type} {ops : DoubleOps D}.

(** C5: a finger outside {thumb, index, middle, ring, little} makes
    [configure] fail before the driver is opened: the whole session
    consists of the message "unknown finger!", no [driver.open] takes
    place, and the process exits with code 2. *)
Theorem C5_unknown_finger_rejected :
  forall (args : list (string * string)) (w : World D) (ts : list (Tick D))
         (garbage : ExampleModule D),
    w_checkNetwork w = true ->
    ~ In (find (main_rf args) "finger") FingerId ->
    result (configure (main_rf args) w (ExampleModule_ctor garbage)) = false /\
    trace (main args w ts garbage) = [Printf ("unknown finger!" ++ nl)] /\
    (forall o, ~ In (DriverOpen o) (trace (main args w ts garbage))) /\
    result (main args w ts garbage) = 2.
Proof.
  intros args w ts g Hnet Hf.
  rewrite finger_eqb_known in Hf.
  assert (Hcfg :
    configure (main_rf args) w (ExampleModule_ctor g) =
    (false, state (set_fingerName (find (main_rf args) "finger")
                     (ExampleModule_ctor g)),
     [Printf ("unknown finger!" ++ nl)])).
  { run_configure. split_tests; try reflexivity; exfalso; apply Hf; tauto. }
  assert (Hres : result (configure (main_rf args) w (ExampleModule_ctor g))
                 = false) by (rewrite Hcfg; reflexivity).
  rewrite (main_online args w ts g Hnet).
  rewrite (runModule_rejected _ w ts _ Hres). rewrite Hcfg.
  unfold result, trace; cbn [fst snd].
  repeat split.
  intros o [H|[]]. discriminate H.
Qed.

(** C6: the finger selects the joint by the fixed table thumb 10,
    index 12, middle 14, ring 15, little 15, whatever else the
    configuration meets afterwards. *)
Theorem C6_finger_joint_mapping :
  forall (rf : ResourceFinder) (w : World D) (s : ExampleModule D)
         (f : string) (j : Z),
    In (f, j) finger_joint_table ->
    find rf "finger" = f ->
    joint (state (configure rf w s)) = j.
Proof.
  intros rf w s f j Hin Hf. subst f.
  apply finger_eqb_table in Hin.
  run_configure.
  destruct Hin as [[E ->]|[[E ->]|[[E ->]|[[E ->]|[E ->]]]]];
    apply String.eqb_eq in E; rewrite E; cbn [String.eqb Ascii.eqb Bool.eqb];
    split_tests; reflexivity.
Qed.

(** [configure] succeeds exactly when the finger is known, the driver
    opens, the model type is springy or tactile and the model loads;
    the only lines it prints about a bad option concern the finger and
    the model type. *)
Lemma configure_result_iff :
  forall (rf : ResourceFinder) (w : World D) (s : ExampleModule D),
    let name := find rf "name" in
    let robot := find rf "robot" in
    let hand := find rf "hand" in
    let modelType := find rf "modelType" in
    (result (configure rf w s) = true <->
       In (find rf "finger") FingerId /\
       w_driver_open w (driverOpt name robot hand) = true /\
       (modelType = "springy" /\
        w_fromProperty w SpringyFingersModel
          (options name robot hand modelType) = true
        \/
        modelType = "tactile" /\
        w_fromProperty w TactileFingersModel
          (options name robot hand modelType) = true))
    /\
    (forall line, In (Printf line) (trace (configure rf w s)) ->
       line = ("unknown finger!" ++ nl)%string /\ ~ In (find rf "finger") FingerId
       \/
       line = ("unknown model type!" ++ nl)%string /\
       modelType <> "springy" /\ modelType <> "tactile").
Proof.
  intros rf w s name robot hand modelType.
  subst name robot hand modelType.
  rewrite finger_eqb_known.
  split.
  - run_configure. split_tests;
      repeat match goal with
             | E : (_ =? _) = true |- _ => apply String.eqb_eq in E
             | E : (_ =? _) = false |- _ => apply String.eqb_neq in E
             end;
      (split; [intros H; try discriminate H|intros H]);
      try (repeat split; solve [tauto | congruence]);
      try (exfalso; intuition (try congruence)).
  - intros line. run_configure. split_tests;
      repeat match goal with
             | E : (_ =? _) = true |- _ => apply String.eqb_eq in E
             | E : (_ =? _) = false |- _ => apply String.eqb_neq in E
             end;
      cbn [In]; intros H;
      repeat match goal with
             | H : _ \/ _ |- _ => destruct H as [H|H]
             | H : False |- _ => destruct H
             | H : _ = Printf _ |- _ => try discriminate H; injection H as H
             end; subst;
      first [ left; split;
              [reflexivity|rewrite finger_eqb_known, !String.eqb_eq; tauto]
            | right; split; [reflexivity|split; assumption] ].
Qed.

End ConfigurationClaims.

(* ================================================================== *)
(** ** Tick claims *)

Section TickClaims.

Context {D : Type} {ops : DoubleOps D}.

Lemma nth_error_alternate (s : ExampleModule D) (n : nat) :
  forall (a : Addr) (k : nat) (x : D),
    nth_error (map (deref s) (alternate a n)) k = Some x ->
    x = deref s (if Nat.even k then a else flip a).
Proof.
  induction n as [|n IH]; intros a k x H.
  - destruct k; discriminate H.
  - destruct k as [|k].
    + cbn in H. injection H as <-. reflexivity.
    + cbn [alternate map nth_error] in H. apply IH in H. subst x.
      rewrite Nat.even_succ, <- Nat.negb_even.
      destruct (Nat.even k); cbn [negb]; rewrite ?flip_flip; reflexivity.
Qed.

(** The commanded targets of a configured module, by position. *)
Lemma run_loop_targets (rf : ResourceFinder) (w : World D)
  (s : ExampleModule D) (ts : list (Tick D)) (k : nat) (x : D) :
  calibrate s = true ->
  result (configure rf w s) = true ->
  nth_error (moves (trace (run_loop ts (state (configure rf w s))))) k
  = Some x ->
  x = if Nat.even k then min (state (configure rf w s))
      else max (state (configure rf w s)).
Proof.
  intros Hc Hok Hnth.
  destruct (configure_ok rf w s Hok) as [C1 C2 C3 C4 C5 C6].
  set (s1 := state (configure rf w s)) in *.
  assert (Hc1 : calibrate s1 = true) by congruence.
  destruct ts as [|t ts]; [destruct k; discriminate Hnth|].
  rewrite (run_loop_first t ts s1 Hc1) in Hnth.
  rewrite (updateModule_calibrating s1 t Hc1) in Hnth.
  unfold trace at 1 2 in Hnth. cbn [snd app moves] in Hnth.
  set (s2 := state (set_calibrate false s1)) in *.
  assert (Hc2 : calibrate s2 = false) by reflexivity.
  destruct (run_loop_scanning ts s2 Hc2) as [_ _ _ _ _ _ _ Halt].
  rewrite Halt in Hnth.
  change (val s2) with (val s1) in Hnth. rewrite C6 in *.
  set (n := length (moves (trace (run_loop ts s2)))) in *.
  change (deref s1 AddrMin :: map (deref s2) (alternate (flip AddrMin) n))
    with (map (deref s1) (alternate AddrMin (S n))) in Hnth.
  apply nth_error_alternate in Hnth. subst x.
  destruct (Nat.even k); reflexivity.
Qed.

(** Every position move of the loop names the configured joint. *)
Lemma run_loop_joint (rf : ResourceFinder) (w : World D)
  (s : ExampleModule D) (ts : list (Tick D)) (j : Z) :
  calibrate s = true ->
  result (configure rf w s) = true ->
  In j (moved_joints (trace (run_loop ts (state (configure rf w s))))) ->
  j = joint (state (configure rf w s)).
Proof.
  intros Hc Hok Hin.
  destruct (configure_ok rf w s Hok) as [C1 _ _ _ _ _].
  set (s1 := state (configure rf w s)) in *.
  assert (Hc1 : calibrate s1 = true) by congruence.
  destruct ts as [|t ts]; [destruct Hin|].
  rewrite (run_loop_first t ts s1 Hc1) in Hin.
  rewrite (updateModule_calibrating s1 t Hc1) in Hin.
  unfold trace at 1 2 in Hin. cbn [snd app moved_joints] in Hin.
  destruct Hin as [Hj|Hin]; [symmetry; exact Hj|].
  set (s2 := state (set_calibrate false s1)) in *.
  assert (Hc2 : calibrate s2 = false) by reflexivity.
  destruct (run_loop_scanning ts s2 Hc2) as [_ _ _ _ _ _ Hjs _].
  apply Hjs. exact Hin.
Qed.

(** Every position move of a session names the configured joint and
    carries one of the two bounds computed by [configure]. *)
Lemma main_moves (args : list (string * string)) (w : World D)
  (ts : list (Tick D)) (g : ExampleModule D) (j : Z) (x : D) :
  In (PositionMove j x) (trace (main args w ts g)) ->
  let s1 := state (configure (main_rf args) w (ExampleModule_ctor g)) in
  result (configure (main_rf args) w (ExampleModule_ctor g)) = true /\
  j = joint s1 /\ (x = min s1 \/ x = max s1).
Proof.
  intros Hin s1.
  unfold main in Hin. destruct (w_checkNetwork w).
  2:{ destruct Hin as [H|[]]. discriminate H. }
  cbn [negb] in Hin.
  destruct (result (configure (main_rf args) w (ExampleModule_ctor g)))
    eqn:Hok.
  - split; [reflexivity|].
    rewrite (runModule_accepted _ w ts _ Hok) in Hin. fold s1 in Hin.
    unfold trace at 1 in Hin. cbn [snd] in Hin.
    apply in_app_or in Hin. destruct Hin as [Hin|Hin].
    { apply In_moves in Hin.
      destruct (configure_quiet (main_rf args) w (ExampleModule_ctor g))
        as [Hq _]. rewrite Hq in Hin. destruct Hin. }
    apply in_app_or in Hin. destruct Hin as [Hin|Hin].
    2:{ destruct Hin as [H|[H|[H|[]]]]; discriminate H. }
    split.
    + apply In_moved_joints in Hin.
      exact (run_loop_joint _ w (ExampleModule_ctor g) ts j eq_refl Hok Hin).
    + apply In_moves in Hin. apply In_nth_error in Hin.
      destruct Hin as [k Hk].
      pose proof (run_loop_targets _ w (ExampleModule_ctor g) ts k x eq_refl
                    Hok Hk) as Hx.
      fold s1 in Hx. destruct (Nat.even k); [left|right]; exact Hx.
  - rewrite (runModule_rejected _ w ts _ Hok) in Hin.
    unfold trace in Hin. cbn [snd] in Hin.
    apply In_moves in Hin.
    destruct (configure_quiet (main_rf args) w (ExampleModule_ctor g))
      as [Hq _]. unfold trace in Hq. rewrite Hq in Hin. destruct Hin.
Qed.

(** Scanning ticks that are not within reach leave everything as it is. *)
Lemma run_loop_waiting (pre : list (Tick D)) (s : ExampleModule D) :
  calibrate s = false ->
  Forall (fun t => reached s t = false) pre ->
  state (run_loop pre s) = s /\ moves (trace (run_loop pre s)) = [].
Proof.
  intros Hc Hpre. induction Hpre as [|t pre Ht Hpre IH].
  - split; reflexivity.
  - rewrite run_loop_cons. rewrite (updateModule_scanning s t Hc), Ht.
    destruct IH as [IH1 IH2].
    unfold state, trace in *. cbn [fst snd] in *.
    split; [exact IH1|].
    cbn [app moves]. rewrite !moves_app, moves_report. cbn [moves app].
    exact IH2.
Qed.

(** Scenario S1 for any arithmetic: the first tick commands the lower
    bound; ticks out of reach command nothing; the first tick within
    reach commands the upper bound. *)
Lemma first_two_targets (args : list (string * string)) (w : World D)
  (g : ExampleModule D) (t0 : Tick D) (pre : list (Tick D)) (t : Tick D) :
  w_checkNetwork w = true ->
  result (configure (main_rf args) w (ExampleModule_ctor g)) = true ->
  let s1 := state (configure (main_rf args) w (ExampleModule_ctor g)) in
  Forall (fun t' => dlt (fabs (dsub (min s1) (t_getEncoder t' (joint s1)))) d5
                    = false) pre ->
  dlt (fabs (dsub (min s1) (t_getEncoder t (joint s1)))) d5 = true ->
  moves (trace (main args w (t0 :: pre ++ [t]) g)) = [min s1; max s1].
Proof.
  intros Hnet Hok s1 Hpre Ht.
  destruct (configure_ok _ w _ Hok) as [C1 C2 C3 C4 C5 C6].
  fold s1 in C1, C2, C3, C4, C5, C6.
  assert (Hc1 : calibrate s1 = true) by (rewrite C1; reflexivity).
  set (s2 := state (set_calibrate false s1)).
  assert (Hc2 : calibrate s2 = false) by reflexivity.
  assert (Hv2 : val s2 = AddrMin) by exact C6.
  rewrite (main_online args w _ g Hnet).
  rewrite (runModule_accepted _ w _ _ Hok). fold s1.
  unfold trace at 1. cbn [snd]. rewrite !moves_app.
  destruct (configure_quiet (main_rf args) w (ExampleModule_ctor g))
    as [Hq _]. rewrite Hq. cbn [app moves].
  rewrite (run_loop_first t0 _ s1 Hc1). fold s2.
  unfold trace at 1. cbn [snd]. rewrite moves_app.
  rewrite (updateModule_calibrating s1 t0 Hc1).
  unfold trace at 1. cbn [snd moves]. rewrite C6. cbn [deref].
  rewrite run_loop_app.
  assert (Hpre2 : Forall (fun t' => reached s2 t' = false) pre).
  { eapply Forall_impl; [|exact Hpre]. intros a Ha.
    unfold reached. rewrite Hv2. exact Ha. }
  destruct (run_loop_waiting pre s2 Hc2 Hpre2) as [Hs Hm].
  unfold trace at 1. cbn [snd]. rewrite moves_app, Hm, Hs.
  rewrite run_loop_cons, (updateModule_scanning s2 t Hc2).
  assert (Hr : reached s2 t = true) by (unfold reached; rewrite Hv2; exact Ht).
  rewrite Hr. unfold trace, state. cbn [fst snd moves run_loop ret].
  rewrite !app_nil_r. cbn [moves app].
  rewrite moves_app, moves_report. cbn [moves app].
  rewrite Hv2. reflexivity.
Qed.

(** With a single tick the session commands the lower bound only. *)
Lemma first_two_targets_0 (args : list (string * string)) (w : World D)
  (g : ExampleModule D) (t0 : Tick D) :
  w_checkNetwork w = true ->
  result (configure (main_rf args) w (ExampleModule_ctor g)) = true ->
  moves (trace (main args w [t0] g)) =
  [min (state (configure (main_rf args) w (ExampleModule_ctor g)))].
Proof.
  intros Hnet Hok.
  destruct (configure_ok _ w _ Hok) as [C1 _ _ _ _ C6].
  set (s1 := state (configure (main_rf args) w (ExampleModule_ctor g))) in *.
  assert (Hc1 : calibrate s1 = true) by (rewrite C1; reflexivity).
  rewrite (main_online args w _ g Hnet).
  rewrite (runModule_accepted _ w _ _ Hok). fold s1.
  unfold trace at 1. cbn [snd]. rewrite !moves_app.
  destruct (configure_quiet (main_rf args) w (ExampleModule_ctor g))
    as [Hq _]. rewrite Hq. cbn [app moves].
  rewrite (run_loop_first t0 _ s1 Hc1).
  rewrite (updateModule_calibrating s1 t0 Hc1).
  unfold trace. cbn [snd moves app run_loop ret]. rewrite C6. reflexivity.
Qed.

(** C3: a scanning tick whose encoder reading is within 5 of the
    target toggles the target and issues a position move with the new
    one (and a tick that is not within 5 changes and commands
    nothing); the statement of line 239 moves [val] to the other
    bound; hence over any run of ticks after a successful [configure]
    the commanded targets read lo, hi, lo, hi, ... *)
Theorem C3_flip_alternates :
  (forall (s : ExampleModule D) (t : Tick D),
     calibrate s = false ->
     reached s t = true ->
     val (state (updateModule t s)) = flip (val s) /\
     min (state (updateModule t s)) = min s /\
     max (state (updateModule t s)) = max s /\
     In (PositionMove (joint s) (deref s (flip (val s))))
        (trace (updateModule t s)) /\
     moves (trace (updateModule t s)) = [deref s (flip (val s))]) /\
  (forall (s : ExampleModule D) (t : Tick D),
     calibrate s = false ->
     reached s t = false ->
     state (updateModule t s) = s /\ moves (trace (updateModule t s)) = []) /\
  (forall s : ExampleModule D,
     val (state (toggle s)) = flip (val s) /\
     flip (val s) <> val s /\ trace (toggle s) = []) /\
  (forall (rf : ResourceFinder) (w : World D) (s : ExampleModule D)
          (ts : list (Tick D)) (k : nat) (x : D),
     calibrate s = true ->
     result (configure rf w s) = true ->
     nth_error
       (moves (trace (run_loop ts (state (configure rf w s))))) k = Some x ->
     x = if Nat.even k then min (state (configure rf w s))
         else max (state (configure rf w s))).
Proof.
  repeat split.
  - rewrite (updateModule_scanning s t H), H0. reflexivity.
  - rewrite (updateModule_scanning s t H), H0. reflexivity.
  - rewrite (updateModule_scanning s t H), H0. reflexivity.
  - rewrite (updateModule_scanning s t H), H0.
    unfold trace; cbn [snd]. right. apply in_or_app. right.
    right. left. reflexivity.
  - rewrite (updateModule_scanning s t H), H0.
    unfold trace; cbn [snd moves]. rewrite moves_app, moves_report.
    reflexivity.
  - rewrite (updateModule_scanning s t H), H0. reflexivity.
  - rewrite (updateModule_scanning s t H), H0.
    unfold trace; cbn [snd moves]. rewrite moves_app, moves_report.
    reflexivity.
  - destruct s as [m c f mn mx [|] j]; reflexivity.
  - apply flip_neq.
  - destruct s as [m c f mn mx [|] j]; reflexivity.
  - intros rf w s ts k x Hc Hok Hnth.
    exact (run_loop_targets rf w s ts k x Hc Hok Hnth).
Qed.

(** C7: the first tick after a successful [configure] calibrates, sets
    the reference acceleration to 1e9, sets the reference speed to 60
    for ring and little and to 30 for thumb, index and middle, and
    commands the joint; ring gives joint 15 at speed 60, middle joint
    14 at speed 30. *)
Theorem C7_first_tick_speed :
  forall (rf : ResourceFinder) (w : World D) (s : ExampleModule D)
         (t : Tick D),
    calibrate s = true ->
    result (configure rf w s) = true ->
    let s1 := state (configure rf w s) in
    let f := find rf "finger" in
    exists v : D,
      trace (updateModule t s1) =
      [ Calibrate [("finger", VString f)];
        SetRefAcceleration (joint s1) d1e9;
        SetRefSpeed (joint s1) v;
        PositionMove (joint s1) (min s1) ] /\
      (In f ["ring"; "little"] -> v = d60) /\
      (In f ["thumb"; "index"; "middle"] -> v = d30) /\
      (f = "ring" -> joint s1 = 15 /\ v = d60) /\
      (f = "middle" -> joint s1 = 14 /\ v = d30).
Proof.
  intros rf w s t Hc Hok s1 f.
  destruct (configure_ok rf w s Hok) as [C1 C2 C3 C4 C5 C6].
  fold s1 in C1, C2, C3, C4, C5, C6. fold f in C2, C3.
  assert (Hc1 : calibrate s1 = true) by congruence.
  exists (cruise f).
  rewrite (updateModule_calibrating s1 t Hc1), C2, C6.
  unfold trace; cbn [snd deref].
  split; [reflexivity|].
  repeat split.
  - intros [<-|[<-|[]]]; reflexivity.
  - intros [<-|[<-|[<-|[]]]]; reflexivity.
  - apply finger_eqb_table in C3. rewrite H, !String.eqb_eq in C3.
    cbn in C3. intuition discriminate.
  - rewrite H. reflexivity.
  - apply finger_eqb_table in C3. rewrite H, !String.eqb_eq in C3.
    intuition discriminate.
  - rewrite H. reflexivity.
Qed.

End TickClaims.

(* ================================================================== *)
(** ** Calibration claims *)

Section CalibrationClaims.

Context {D : Type} {ops : DoubleOps D}.

(** C8: in a session with at least one tick the model is calibrated
    exactly once, by the first tick, which also commands the joint to
    lo; before every later tick the [calibrate] flag is false and that
    tick calibrates nothing. *)
Theorem C8_calibrate_once :
  forall (args : list (string * string)) (w : World D) (t : Tick D)
         (ts : list (Tick D)) (garbage : ExampleModule D),
    w_checkNetwork w = true ->
    result (configure (main_rf args) w (ExampleModule_ctor garbage)) = true ->
    let s1 := state (configure (main_rf args) w (ExampleModule_ctor garbage)) in
    let lo := safe_lo (fst (w_getLimits w (joint s1)))
                      (snd (w_getLimits w (joint s1))) in
    calibrations (trace (main args w (t :: ts) garbage)) = 1%nat /\
    calibrations (trace (updateModule t s1)) = 1%nat /\
    In (PositionMove (joint s1) lo) (trace (updateModule t s1)) /\
    (forall (ts1 : list (Tick D)) (t' : Tick D) (ts2 : list (Tick D)),
       ts = ts1 ++ t' :: ts2 ->
       let s' := state (run_loop (t :: ts1) s1) in
       calibrate s' = false /\
       calibrations (trace (updateModule t' s')) = 0%nat).
Proof.
  intros args w t ts g Hnet Hok s1 lo.
  destruct (configure_ok _ w _ Hok) as [C1 C2 C3 C4 C5 C6].
  fold s1 in C1, C2, C3, C4, C5, C6.
  assert (Hc1 : calibrate s1 = true) by (rewrite C1; reflexivity).
  set (s2 := state (set_calibrate false s1)).
  assert (Hc2 : calibrate s2 = false) by reflexivity.
  assert (Hfirst : trace (updateModule t s1) =
            [ Calibrate [("finger", VString (fingerName s1))];
              SetRefAcceleration (joint s1) d1e9;
              SetRefSpeed (joint s1) (cruise (fingerName s1));
              PositionMove (joint s1) lo ]).
  { rewrite (updateModule_calibrating s1 t Hc1). unfold trace; cbn [snd].
    rewrite C6. cbn [deref]. rewrite C4. reflexivity. }
  split; [|split; [|split]].
  - rewrite (main_online args w _ g Hnet).
    rewrite (runModule_accepted _ w _ _ Hok). fold s1.
    unfold trace at 1; cbn [snd].
    rewrite !calibrations_app.
    destruct (configure_quiet (main_rf args) w (ExampleModule_ctor g))
      as [_ Hq]. rewrite Hq.
    rewrite (run_loop_first t ts s1 Hc1). fold s2.
    unfold trace at 1; cbn [snd]. rewrite calibrations_app, Hfirst.
    destruct (run_loop_scanning ts s2 Hc2) as [_ _ _ _ _ Hn _ _].
    rewrite Hn. reflexivity.
  - rewrite Hfirst. reflexivity.
  - rewrite Hfirst. right. right. right. left. reflexivity.
  - intros ts1 t' ts2 Hts s'.
    assert (Hs' : s' = state (run_loop ts1 s2)).
    { subst s'. rewrite (run_loop_first t ts1 s1 Hc1). reflexivity. }
    destruct (run_loop_scanning ts1 s2 Hc2) as [Hc' _ _ _ _ _ _ _].
    rewrite <- Hs' in Hc'. split; [exact Hc'|].
    rewrite (updateModule_scanning s' t' Hc').
    unfold trace; cbn [snd calibrations].
    rewrite calibrations_app, calibrations_report.
    destruct (reached s' t'); reflexivity.
Qed.

(** C4, as the code has it: the answer of [model.calibrate] is not
    looked at.  A first tick whose calibration fails still clears the
    flag, sets acceleration and speed, commands the joint and returns
    true; the remaining ticks scan, the module is closed, and the
    session ends with status 0. *)
Theorem C4_calibration_failure_ignored :
  forall (args : list (string * string)) (w : World D) (t : Tick D)
         (ts : list (Tick D)) (garbage : ExampleModule D),
    w_checkNetwork w = true ->
    result (configure (main_rf args) w (ExampleModule_ctor garbage)) = true ->
    t_calibrate t = false ->
    let cfg := configure (main_rf args) w (ExampleModule_ctor garbage) in
    let s1 := state cfg in
    let s2 := state (updateModule t s1) in
    result (updateModule t s1) = true /\
    calibrate s2 = false /\
    trace (updateModule t s1) =
      [ Calibrate [("finger", VString (fingerName s1))];
        SetRefAcceleration (joint s1) d1e9;
        SetRefSpeed (joint s1) (cruise (fingerName s1));
        PositionMove (joint s1) (min s1) ] /\
    trace (main args w (t :: ts) garbage) =
      trace cfg ++ trace (updateModule t s1) ++ trace (run_loop ts s2)
        ++ [DriverClose; ToProperty;
            PrintfOptions "model options: " (w_toProperty w)] /\
    result (main args w (t :: ts) garbage) = 0.
Proof.
  intros args w t ts g Hnet Hok _ cfg s1 s2.
  destruct (configure_ok _ w _ Hok) as [C1 C2 C3 C4 C5 C6].
  fold cfg in C1, C2, C3, C4, C5, C6. fold s1 in C1, C2, C3, C4, C5, C6.
  assert (Hc1 : calibrate s1 = true) by (rewrite C1; reflexivity).
  subst s2.
  rewrite (main_online args w _ g Hnet).
  rewrite (runModule_accepted _ w _ _ Hok). fold cfg. fold s1.
  rewrite (run_loop_first t ts s1 Hc1).
  rewrite (updateModule_calibrating s1 t Hc1).
  unfold result, state, trace; cbn [fst snd].
  rewrite C6. cbn [deref].
  repeat split.
Qed.

(** C10: a scanning tick that finds no node for the finger prints no
    report, still reads the encoder, still toggles the target and
    moves when the reading is within 5 of the target, and returns
    true; what it does to the joint and to the state is what a tick
    with the same encoder answer and a node would do. *)
Theorem C10_no_node_still_moves :
  forall (s : ExampleModule D) (t : Tick D),
    calibrate s = false ->
    t_getNode t (fingerName s) = None ->
    result (updateModule t s) = true /\
    (forall n d o, ~ In (PrintfReport n d o) (trace (updateModule t s))) /\
    (reached s t = true ->
       trace (updateModule t s) =
         [ GetNode (fingerName s); GetEncoder (joint s);
           PositionMove (joint s) (deref s (flip (val s))) ] /\
       val (state (updateModule t s)) = flip (val s)) /\
    (reached s t = false ->
       trace (updateModule t s) =
         [ GetNode (fingerName s); GetEncoder (joint s) ] /\
       state (updateModule t s) = s) /\
    (forall t' : Tick D,
       t_getEncoder t' (joint s) = t_getEncoder t (joint s) ->
       state (updateModule t' s) = state (updateModule t s) /\
       moves (trace (updateModule t' s)) = moves (trace (updateModule t s))).
Proof.
  intros s t Hc Hnone.
  rewrite (updateModule_scanning s t Hc).
  unfold report. rewrite Hnone.
  unfold result, state, trace; cbn [fst snd app].
  split; [reflexivity|]. split; [|split; [|split]].
  - intros n d o [H|[H|H]]; try discriminate H.
    destruct (reached s t); [destruct H as [H|[]]; discriminate H|destruct H].
  - intros ->. split; reflexivity.
  - intros ->. split; reflexivity.
  - intros t' Henc.
    rewrite (updateModule_scanning s t' Hc).
    assert (Hr : reached s t' = reached s t)
      by (unfold reached; rewrite Henc; reflexivity).
    rewrite Hr. cbn [fst snd moves]. split; [reflexivity|].
    rewrite moves_app, moves_report. reflexivity.
Qed.

End CalibrationClaims.

(* ================================================================== *)
(** ** The safe range *)

Lemma joint_of_index (j : Z) : In ("index", j) finger_joint_table -> j = 12.
Proof.
  unfold finger_joint_table. cbn [In].
  intros [H|[H|[H|[H|[H|[]]]]]]; try discriminate H.
  injection H as <-. reflexivity.
Qed.

(** The test of line 237 in exact arithmetic. *)
Lemma exact_within (a fb : Q) :
  dlt (fabs (dsub a fb)) d5 = true <-> (Qabs (a - fb) < 5)%Q.
Proof.
  cbn [dlt fabs dsub d5 exactQ].
  rewrite negb_true_iff, <- not_true_iff_false, Qle_bool_iff.
  rewrite !Qred_correct. split.
  - intros H. apply Qnot_le_lt. exact H.
  - intros H. apply Qlt_not_le. exact H.
Qed.

Lemma exact_not_within (a fb : Q) :
  dlt (fabs (dsub a fb)) d5 = false <-> (5 <= Qabs (a - fb))%Q.
Proof.
  cbn [dlt fabs dsub d5 exactQ].
  rewrite negb_false_iff, Qle_bool_iff, !Qred_correct. reflexivity.
Qed.

(** C1, as the code has it: every target of a position move of a
    session, the first after calibration and every later flipped one,
    is sent to the joint selected by the finger and is one of the two
    bounds computed from that joint's limits, min + 0.1 (max - min) or
    max - 0.1 (max - min), each operation carried out in the
    arithmetic of the program (for the program: rounded binary64
    operations). *)
Theorem C1_targets_are_stored_bounds :
  forall (D : Type) (ops : DoubleOps D) (args : list (string * string))
         (w : World D) (ts : list (Tick D)) (garbage : ExampleModule D)
         (j : Z) (x : D),
    In (PositionMove j x) (trace (main args w ts garbage)) ->
    let mn := fst (w_getLimits w j) in
    let mx := snd (w_getLimits w j) in
    In (find (main_rf args) "finger", j) finger_joint_table /\
    (x = dadd mn (dmul d0_1 (dsub mx mn)) \/
     x = dsub mx (dmul d0_1 (dsub mx mn))).
Proof.
  intros D ops args w ts g j x Hin mn mx.
  destruct (main_moves args w ts g j x Hin) as [Hok [Hj Hx]].
  destruct (configure_ok _ w _ Hok) as [_ _ Hjoint Hmin Hmax _].
  rewrite <- Hj in Hjoint, Hmin, Hmax. fold mn mx in Hmin, Hmax.
  split; [exact Hjoint|].
  destruct Hx as [Hx|Hx]; [left|right]; rewrite Hx; assumption.
Qed.

(** C2: [configure] stores lo = min + 0.1 (max - min) and
    hi = max - 0.1 (max - min) and points [val] at lo; for the index
    finger with limits (0, 90) this is (9, 81) both in binary64 and in
    exact arithmetic, the first commanded target is 9, and the first
    tick whose encoder reading is within 5 of 9 commands 81. *)
Theorem C2_safe_range_and_first_targets :
  (forall (D : Type) (ops : DoubleOps D) (rf : ResourceFinder) (w : World D)
          (s : ExampleModule D),
     result (configure rf w s) = true ->
     let s1 := state (configure rf w s) in
     let mn := fst (w_getLimits w (joint s1)) in
     let mx := snd (w_getLimits w (joint s1)) in
     min s1 = dadd mn (dmul d0_1 (dsub mx mn)) /\
     max s1 = dsub mx (dmul d0_1 (dsub mx mn)) /\
     val s1 = AddrMin) /\
  (forall (args : list (string * string)) (w : World float)
          (garbage : ExampleModule float) (t0 : Tick float)
          (pre : list (Tick float)) (t : Tick float),
     w_checkNetwork w = true ->
     find (main_rf args) "finger" = "index" ->
     result (configure (main_rf args) w (ExampleModule_ctor garbage)) = true ->
     w_getLimits w 12 = (0%float, 90%float) ->
     Forall (fun t' => (abs (9 - t_getEncoder t' 12) <? 5)%float = false)
            pre ->
     (abs (9 - t_getEncoder t 12) <? 5)%float = true ->
     let s1 := state (configure (main_rf args) w (ExampleModule_ctor garbage)) in
     joint s1 = 12 /\ min s1 = 9%float /\ max s1 = 81%float /\
     moves (trace (main args w [t0] garbage)) = [9%float] /\
     moves (trace (main args w (t0 :: pre ++ [t]) garbage))
     = [9%float; 81%float]) /\
  (forall (args : list (string * string)) (w : World Q)
          (garbage : ExampleModule Q) (t0 : Tick Q)
          (pre : list (Tick Q)) (t : Tick Q),
     w_checkNetwork w = true ->
     find (main_rf args) "finger" = "index" ->
     result (configure (main_rf args) w (ExampleModule_ctor garbage)) = true ->
     w_getLimits w 12 = (0%Q, 90%Q) ->
     Forall (fun t' => (5 <= Qabs (9 - t_getEncoder t' 12))%Q) pre ->
     (Qabs (9 - t_getEncoder t 12) < 5)%Q ->
     let s1 := state (configure (main_rf args) w (ExampleModule_ctor garbage)) in
     joint s1 = 12 /\ min s1 = 9%Q /\ max s1 = 81%Q /\
     moves (trace (main args w [t0] garbage)) = [9%Q] /\
     moves (trace (main args w (t0 :: pre ++ [t]) garbage)) = [9%Q; 81%Q]).
Proof.
  split; [|split].
  - intros D ops rf w s Hok s1 mn mx.
    destruct (configure_ok rf w s Hok) as [_ _ _ Hmin Hmax Hval].
    repeat split; assumption.
  - intros args w g t0 pre t Hnet Hf Hok Hlim Hpre Ht s1.
    destruct (configure_ok _ w _ Hok) as [_ _ Hj Hmin Hmax _].
    fold s1 in Hj, Hmin, Hmax. rewrite Hf in Hj.
    apply joint_of_index in Hj. rewrite Hj, Hlim in Hmin, Hmax.
    cbn [fst snd] in Hmin, Hmax.
    change (safe_lo 0%float 90%float) with 9%float in Hmin.
    change (safe_hi 0%float 90%float) with 81%float in Hmax.
    split; [exact Hj|]. split; [exact Hmin|]. split; [exact Hmax|].
    rewrite <- Hmin, <- Hmax. split.
    + apply (first_two_targets_0 args w g t0 Hnet Hok).
    + apply (first_two_targets args w g t0 pre t Hnet Hok); fold s1.
      * rewrite Hmin, Hj. exact Hpre.
      * rewrite Hmin, Hj. exact Ht.
  - intros args w g t0 pre t Hnet Hf Hok Hlim Hpre Ht s1.
    destruct (configure_ok _ w _ Hok) as [_ _ Hj Hmin Hmax _].
    fold s1 in Hj, Hmin, Hmax. rewrite Hf in Hj.
    apply joint_of_index in Hj. rewrite Hj, Hlim in Hmin, Hmax.
    cbn [fst snd] in Hmin, Hmax.
    change (safe_lo 0%Q 90%Q) with 9%Q in Hmin.
    change (safe_hi 0%Q 90%Q) with 81%Q in Hmax.
    split; [exact Hj|]. split; [exact Hmin|]. split; [exact Hmax|].
    rewrite <- Hmin, <- Hmax. split.
    + apply (first_two_targets_0 args w g t0 Hnet Hok).
    + apply (first_two_targets args w g t0 pre t Hnet Hok); fold s1.
      * rewrite Hmin, Hj. eapply Forall_impl; [|exact Hpre].
        intros a Ha. apply exact_not_within. exact Ha.
      * rewrite Hmin, Hj. apply exact_within. exact Ht.
Qed.

(* ================================================================== *)
(** ** The scenarios on concrete stubs *)

(** The claim of C1 fails in the arithmetic of the program.  With
    limits (0, 1) the flipped target is the double 0x1.ccccccccccccdp-1,
    which stands for a number above 1 - 0.1 (1 - 0) = 9/10; with limits
    (-2^1023, 2^1023), which are ordered, max - min overflows and the
    first target is +infinity, above the stored upper bound. *)
Lemma C1_counterexample :
  w_getLimits stub_unit64 12 = (0%float, 1%float) /\
  moves (trace (main S1_args stub_unit64
                  [tick64 true 0%float; tick64 true 0%float] fresh64))
  = [0x1.999999999999ap-4%float; 0x1.ccccccccccccdp-1%float] /\
  binary64_value 0x1.ccccccccccccdp-1%float
  = Some (8106479329266893 # 9007199254740992) /\
  ~ (8106479329266893 # 9007199254740992 <= 1 - (1 # 10) * (1 - 0))%Q /\
  w_getLimits stub_huge64 12 = ((-0x1p1023)%float, 0x1p1023%float) /\
  ((-0x1p1023) <? 0x1p1023)%float = true /\
  moves (trace (main S1_args stub_huge64 [tick64 true 0%float] fresh64))
  = [infinity] /\
  (infinity <=? safe_hi (-0x1p1023)%float 0x1p1023%float)%float = false.
Proof.
  split; [reflexivity|]. split; [reflexivity|]. split; [reflexivity|].
  split; [intros H; vm_compute in H; apply H; reflexivity|].
  split; [reflexivity|]. split; [reflexivity|]. split; reflexivity.
Qed.

(** C1 on scenario S1 in binary64: the flipped target 81 is the upper
    bound computed from the limits (0, 90) of joint 12. *)
Lemma C1_witness :
  In (PositionMove 12 81%float)
     (trace (main S1_args stub64 (tick64 true 0%float :: ticks64) fresh64)) /\
  In (find (main_rf S1_args) "finger", 12) finger_joint_table /\
  (81%float = (0 + 0x1.999999999999ap-4 * (90 - 0))%float \/
   81%float = (90 - 0x1.999999999999ap-4 * (90 - 0))%float).
Proof.
  assert (H : In (PositionMove 12 81%float)
                 (trace (main S1_args stub64
                           (tick64 true 0%float :: ticks64) fresh64)))
    by (vm_compute; repeat (first [left; reflexivity | right])).
  split; [exact H|].
  exact (C1_targets_are_stored_bounds float binary64 S1_args stub64
           (tick64 true 0%float :: ticks64) fresh64 12 81%float H).
Defined.

(** C2 at scenario S1 in binary64: one tick away from 9, then one at
    8.5. *)
Lemma C2_witness :
  result (configure (main_rf S1_args) stub64 (ExampleModule_ctor fresh64))
  = true /\
  w_getLimits stub64 12 = (0%float, 90%float) /\
  (abs (9 - t_getEncoder (tick64 true 8.5%float) 12) <? 5)%float = true /\
  min (state (configure (main_rf S1_args) stub64 (ExampleModule_ctor fresh64)))
  = safe_lo 0%float 90%float /\
  moves (trace (main S1_args stub64
                  (tick64 false 0%float
                     :: [tick64 true 50%float] ++ [tick64 true 8.5%float])
                  fresh64))
  = [9%float; 81%float].
Proof.
  assert (Hok : result (configure (main_rf S1_args) stub64
                          (ExampleModule_ctor fresh64)) = true)
    by reflexivity.
  split; [exact Hok|]. split; [reflexivity|]. split; [reflexivity|].
  split.
  - exact (proj1 (proj1 C2_safe_range_and_first_targets float binary64
                    (main_rf S1_args) stub64 (ExampleModule_ctor fresh64)
                    Hok)).
  - refine (proj2 (proj2 (proj2 (proj2
             (proj1 (proj2 C2_safe_range_and_first_targets)
                S1_args stub64 fresh64 (tick64 false 0%float)
                [tick64 true 50%float] (tick64 true 8.5%float)
                eq_refl eq_refl Hok eq_refl _ eq_refl))))).
    constructor; [reflexivity|constructor].
Defined.

(** C3 on the scanning state of scenario S1: a reading of 8.5 flips
    the target from 9 to 81, and the second target of [ticks64] is
    81. *)
Lemma C3_witness :
  calibrate scanning64 = false /\
  reached scanning64 (tick64 true 8.5%float) = true /\
  val (state (updateModule (tick64 true 8.5%float) scanning64)) = AddrMax /\
  moves (trace (updateModule (tick64 true 8.5%float) scanning64))
  = [81%float] /\
  nth_error
    (moves (trace (run_loop ticks64
                     (state (configure (main_rf S1_args) stub64
                               (ExampleModule_ctor fresh64)))))) 1
  = Some 81%float /\
  81%float = max (state (configure (main_rf S1_args) stub64
                           (ExampleModule_ctor fresh64))).
Proof.
  pose proof (proj1 C3_flip_alternates scanning64 (tick64 true 8.5%float)
                eq_refl eq_refl) as [Hv [_ [_ [_ Hm]]]].
  pose proof (proj2 (proj2 (proj2 C3_flip_alternates))
                (main_rf S1_args) stub64 (ExampleModule_ctor fresh64)
                ticks64 1%nat 81%float eq_refl eq_refl eq_refl) as Hx.
  split; [reflexivity|]. split; [reflexivity|].
  split; [exact Hv|]. split; [exact Hm|]. split; [reflexivity|exact Hx].
Defined.

(** The claim of C4 fails on scenario S1: the calibration of the first
    tick fails, the session goes on to command 9 and then 81, and ends
    with status 0. *)
Lemma C4_counterexample :
  w_checkNetwork stub64 = true /\
  t_calibrate (tick64 false 0%float) = false /\
  moves (trace (main S1_args stub64
                  [tick64 false 0%float; tick64 true 8.5%float] fresh64))
  = [9%float; 81%float] /\
  result (main S1_args stub64
            [tick64 false 0%float; tick64 true 8.5%float] fresh64) = 0 /\
  result (main S1_args stub64
            [tick64 false 0%float; tick64 true 8.5%float] fresh64) <> 3.
Proof.
  split; [reflexivity|]. split; [reflexivity|]. split; [reflexivity|].
  split; [reflexivity|]. vm_compute. discriminate.
Qed.

Lemma C4_witness :
  w_checkNetwork stub64 = true /\
  result (configure (main_rf S1_args) stub64 (ExampleModule_ctor fresh64))
  = true /\
  t_calibrate (tick64 false 0%float) = false /\
  result (main S1_args stub64
            (tick64 false 0%float :: [tick64 true 8.5%float]) fresh64) = 0.
Proof.
  split; [reflexivity|]. split; [reflexivity|]. split; [reflexivity|].
  exact (proj2 (proj2 (proj2 (proj2
    (C4_calibration_failure_ignored S1_args stub64 (tick64 false 0%float)
       [tick64 true 8.5%float] fresh64 eq_refl eq_refl eq_refl))))).
Defined.

(** Scenario S3: [--finger pinky]. *)
Lemma C5_witness :
  w_checkNetwork stub64 = true /\
  ~ In (find (main_rf S3_args) "finger") FingerId /\
  trace (main S3_args stub64 ticks64 fresh64)
  = [Printf ("unknown finger!" ++ nl)] /\
  result (main S3_args stub64 ticks64 fresh64) = 2.
Proof.
  assert (H : ~ In (find (main_rf S3_args) "finger") FingerId)
    by (vm_compute; intuition discriminate).
  split; [reflexivity|]. split; [exact H|].
  pose proof (C5_unknown_finger_rejected S3_args stub64 ticks64 fresh64
                eq_refl H) as [_ [Ht [_ Hr]]].
  split; [exact Ht|exact Hr].
Defined.

Lemma C6_witness :
  In ("little", 15) finger_joint_table /\
  find (main_rf [("finger", "little")]) "finger" = "little" /\
  joint (state (configure (main_rf [("finger", "little")]) stub64
                  (ExampleModule_ctor fresh64))) = 15.
Proof.
  assert (H : In ("little", 15) finger_joint_table)
    by (do 4 right; left; reflexivity).
  split; [exact H|]. split; [reflexivity|].
  exact (C6_finger_joint_mapping (main_rf [("finger", "little")]) stub64
           (ExampleModule_ctor fresh64) "little" 15 H eq_refl).
Defined.

(** Scenario S2: [--finger ring]. *)
Lemma C7_witness :
  calibrate (ExampleModule_ctor fresh64) = true /\
  result (configure (main_rf S2_args) stub64 (ExampleModule_ctor fresh64))
  = true /\
  exists v : float,
    trace (updateModule (tick64 true 0%float)
             (state (configure (main_rf S2_args) stub64
                       (ExampleModule_ctor fresh64))))
    = [ Calibrate [("finger", VString "ring")];
        SetRefAcceleration 15 1000000000%float;
        SetRefSpeed 15 v;
        PositionMove 15 9%float ] /\
    v = 60%float.
Proof.
  split; [reflexivity|]. split; [reflexivity|].
  destruct (C7_first_tick_speed (main_rf S2_args) stub64
              (ExampleModule_ctor fresh64) (tick64 true 0%float)
              eq_refl eq_refl) as [v [Ht [_ [_ [Hring _]]]]].
  exists v. split; [exact Ht|]. exact (proj2 (Hring eq_refl)).
Defined.

Lemma C8_witness :
  w_checkNetwork stub64 = true /\
  result (configure (main_rf S1_args) stub64 (ExampleModule_ctor fresh64))
  = true /\
  calibrations (trace (main S1_args stub64
                         (tick64 true 0%float :: ticks64) fresh64)) = 1%nat.
Proof.
  split; [reflexivity|]. split; [reflexivity|].
  exact (proj1 (C8_calibrate_once S1_args stub64 (tick64 true 0%float)
                  ticks64 fresh64 eq_refl eq_refl)).
Defined.

Lemma C10_witness :
  calibrate scanning64 = false /\
  t_getNode (tick64 true 8.5%float) (fingerName scanning64) = None /\
  reached scanning64 (tick64 true 8.5%float) = true /\
  trace (updateModule (tick64 true 8.5%float) scanning64)
  = [GetNode "index"; GetEncoder 12; PositionMove 12 81%float].
Proof.
  split; [reflexivity|]. split; [reflexivity|]. split; [reflexivity|].
  exact (proj1 (proj1 (proj2 (proj2
    (C10_no_node_still_moves scanning64 (tick64 true 8.5%float)
       eq_refl eq_refl))) eq_refl)).
Defined.

(* ================================================================== *)
(** ** What the ticks keep and produce *)

Section TickBehaviour.

Context {D : Type} {ops : DoubleOps D}.

Lemma moves_run_loop_cons (t : Tick D) (ts : list (Tick D))
  (s : ExampleModule D) :
  moves (trace (run_loop (t :: ts) s)) =
  moves (trace (updateModule t s))
    ++ moves (trace (run_loop ts (state (updateModule t s)))).
Proof.
  rewrite run_loop_cons. unfold trace at 1; cbn [snd].
  apply moves_app.
Qed.

Lemma state_run_loop_cons (t : Tick D) (ts : list (Tick D))
  (s : ExampleModule D) :
  state (run_loop (t :: ts) s) = state (run_loop ts (state (updateModule t s))).
Proof. rewrite run_loop_cons. reflexivity. Qed.

Lemma updateModule_frame (t : Tick D) (s : ExampleModule D) :
  let s' := state (updateModule t s) in
  min s' = min s /\ max s' = max s /\ joint s' = joint s /\
  fingerName s' = fingerName s /\ model s' = model s /\
  calibrate s' = false.
Proof.
  destruct (calibrate s) eqn:Hc.
  - rewrite (updateModule_calibrating s t Hc). repeat split.
  - rewrite (updateModule_scanning s t Hc).
    unfold state; cbn [fst snd].
    destruct (reached s t); repeat split; exact Hc.
Qed.

(** X1: no tick touches the safe range, the joint, the finger name or
    the model; after any tick the [calibrate] flag is false.  This
    holds for one call of [updateModule] in any state and for any run
    of ticks. *)
Theorem ticks_keep_configuration :
  forall (ts : list (Tick D)) (s : ExampleModule D),
    let s' := state (run_loop ts s) in
    min s' = min s /\ max s' = max s /\ joint s' = joint s /\
    fingerName s' = fingerName s /\ model s' = model s /\
    (ts <> [] -> calibrate s' = false).
Proof.
  induction ts as [|t ts IH]; intros s; cbv zeta.
  - repeat (split; [reflexivity|]). intros H. contradiction H. reflexivity.
  - rewrite !state_run_loop_cons.
    destruct (updateModule_frame t s) as [F1 [F2 [F3 [F4 [F5 F6]]]]].
    destruct (IH (state (updateModule t s))) as [I1 [I2 [I3 [I4 [I5 I6]]]]].
    repeat split; try congruence.
    intros _. destruct ts as [|t' ts'].
    + exact F6.
    + apply I6. discriminate.
Qed.

Lemma updateModule_last_move (t : Tick D) (s : ExampleModule D) :
  let r := updateModule t s in
  last (moves (trace r)) (deref s (val s)) = deref (state r) (val (state r))
  /\ (length (moves (trace r)) <= 1)%nat.
Proof.
  destruct (calibrate s) eqn:Hc.
  - rewrite (updateModule_calibrating s t Hc). split; [reflexivity|].
    cbn. lia.
  - rewrite (updateModule_scanning s t Hc).
    unfold state, trace; cbn [fst snd moves].
    rewrite moves_app, moves_report. cbn [app moves].
    destruct (reached s t); cbn [moves last length]; split;
      try reflexivity; lia.
Qed.

Lemma last_irrelevant {A} (l : list A) (d d' : A) :
  l <> [] -> last l d = last l d'.
Proof.
  induction l as [|a l IH]; intros H; [contradiction H; reflexivity|].
  destruct l as [|b l]; [reflexivity|].
  change (last (b :: l) d = last (b :: l) d'). apply IH. discriminate.
Qed.

Lemma last_app_default {A} (l1 l2 : list A) (d : A) :
  last (l1 ++ l2) d = last l2 (last l1 d).
Proof.
  revert d. induction l1 as [|a l1 IH]; intros d; [reflexivity|].
  destruct l1 as [|b l1].
  - cbn [app]. destruct l2 as [|c l2]; [reflexivity|].
    change (last (c :: l2) d = last (c :: l2) a).
    apply last_irrelevant. discriminate.
  - change (last ((b :: l1) ++ l2) d = last l2 (last (b :: l1) d)).
    apply IH.
Qed.

(** X2: the target the module holds is the last one it commanded: after
    any run of ticks [*val] equals the target of the last position move
    of the run, or the target held before when the run moved
    nothing. *)
Theorem held_target_is_last_commanded :
  forall (ts : list (Tick D)) (s : ExampleModule D),
    let r := run_loop ts s in
    last (moves (trace r)) (deref s (val s))
    = deref (state r) (val (state r)).
Proof.
  induction ts as [|t ts IH]; intros s; cbv zeta.
  - reflexivity.
  - rewrite moves_run_loop_cons, last_app_default, state_run_loop_cons.
    destruct (updateModule_last_move t s) as [H _].
    cbv zeta in H. rewrite H. apply IH.
Qed.

(** X3: a tick issues at most one position move, so a run of n ticks
    issues at most n; a run that starts with the calibrating tick
    issues at least one. *)
Theorem at_most_one_move_per_tick :
  forall (ts : list (Tick D)) (s : ExampleModule D),
    (length (moves (trace (run_loop ts s))) <= length ts)%nat /\
    (calibrate s = true -> ts <> [] ->
     (1 <= length (moves (trace (run_loop ts s))))%nat).
Proof.
  induction ts as [|t ts IH]; intros s.
  - split; [cbn; lia|]. intros _ H. contradiction H. reflexivity.
  - rewrite moves_run_loop_cons, length_app.
    destruct (updateModule_last_move t s) as [_ H1]. cbv zeta in H1.
    destruct (IH (state (updateModule t s))) as [H2 _].
    split; [cbn [length]; lia|].
    intros Hc _. rewrite (updateModule_calibrating s t Hc).
    unfold trace at 1; cbn [snd moves length]. lia.
Qed.

(** X4: there is no timeout.  After the calibrating tick has commanded
    the held target, ticks whose encoder reading stays 5 or more away
    from it command nothing and leave [val] where it is, however many
    they are. *)
Theorem out_of_reach_never_moves :
  forall (t : Tick D) (pre : list (Tick D)) (s : ExampleModule D),
    calibrate s = true ->
    Forall (fun t' => reached s t' = false) pre ->
    moves (trace (run_loop (t :: pre) s)) = [deref s (val s)] /\
    val (state (run_loop (t :: pre) s)) = val s.
Proof.
  intros t pre s Hc Hpre.
  rewrite (run_loop_first t pre s Hc).
  set (s2 := state (set_calibrate false s)).
  assert (Hc2 : calibrate s2 = false) by reflexivity.
  assert (Hpre2 : Forall (fun t' => reached s2 t' = false) pre)
    by exact Hpre.
  destruct (run_loop_waiting pre s2 Hc2 Hpre2) as [Hs Hm].
  unfold state at 1, trace at 1; cbn [fst snd].
  rewrite moves_app, Hm, Hs, (updateModule_calibrating s t Hc).
  split; reflexivity.
Qed.

(** X5: the two tolerance bands can overlap.  While the encoder reading
    is within 5 of both bounds, every scanning tick flips the target
    and issues a position move: n such ticks give n moves. *)
Theorem overlapping_bands_flip_every_tick :
  forall (ts : list (Tick D)) (s : ExampleModule D),
    calibrate s = false ->
    Forall (fun t => within5 (min s) (t_getEncoder t (joint s)) = true /\
                     within5 (max s) (t_getEncoder t (joint s)) = true) ts ->
    length (moves (trace (run_loop ts s))) = length ts.
Proof.
  induction ts as [|t ts IH]; intros s Hc Hall; [reflexivity|].
  inversion Hall as [|t0 ts0 [Hlo Hhi] Hrest]; subst.
  assert (Hr : reached s t = true)
    by (unfold reached, deref; destruct (val s); assumption).
  rewrite moves_run_loop_cons, length_app.
  rewrite (updateModule_scanning s t Hc), Hr.
  unfold trace at 1; cbn [snd moves].
  rewrite moves_app, moves_report. cbn [app moves length Nat.add]. f_equal.
  apply (IH (state (set_val (flip (val s)) s)) Hc). exact Hrest.
Qed.

(** X6: a scanning tick that finds the node prints exactly one report
    line, made of the node's own name, sensors data and output, after
    asking for the node and before reading the encoder; the position
    move, if any, comes last. *)
Theorem scanning_tick_reports_then_reads :
  forall (s : ExampleModule D) (t : Tick D) (node : NodeReading),
    calibrate s = false ->
    t_getNode t (fingerName s) = Some node ->
    exists tail : list (event D),
      trace (updateModule t s) =
        GetNode (fingerName s)
        :: PrintfReport (node_getName node) (node_getSensorsData node)
             (node_getOutput node)
        :: GetEncoder (joint s) :: tail /\
      (reached s t = true ->
       tail = [PositionMove (joint s) (deref s (flip (val s)))]) /\
      (reached s t = false -> tail = []).
Proof.
  intros s t node Hc Hnode.
  rewrite (updateModule_scanning s t Hc). unfold report. rewrite Hnode.
  unfold trace; cbn [snd app].
  destruct (reached s t); eexists; (split; [reflexivity|]);
    split; intros H; try discriminate H; reflexivity.
Qed.

End TickBehaviour.

(* ================================================================== *)
(** ** The paths through [configure] *)

Section ConfigurePaths.

Context {D : Type} {ops : DoubleOps D}.

Ltac eqb_props :=
  repeat match goal with
         | E : (_ =? _) = true |- _ => apply String.eqb_eq in E
         | E : (_ =? _) = false |- _ => apply String.eqb_neq in E
         end.

(** X7: when the finger is known and the driver does not open,
    [configure] returns false having done nothing but the attempt to
    open: the joint is selected, but no limits are read, the safe
    range and [val] keep what they held, and no model is created. *)
Theorem configure_driver_failure :
  forall (rf : ResourceFinder) (w : World D) (s : ExampleModule D) (j : Z),
    In (find rf "finger", j) finger_joint_table ->
    w_driver_open w
      (driverOpt (find rf "name") (find rf "robot") (find rf "hand")) = false ->
    result (configure rf w s) = false /\
    trace (configure rf w s) =
      [DriverOpen
         (driverOpt (find rf "name") (find rf "robot") (find rf "hand"))] /\
    joint (state (configure rf w s)) = j /\
    min (state (configure rf w s)) = min s /\
    max (state (configure rf w s)) = max s /\
    val (state (configure rf w s)) = val s /\
    model (state (configure rf w s)) = model s.
Proof.
  intros rf w s j Hin Hopen.
  apply finger_eqb_table in Hin.
  run_configure. rewrite Hopen.
  destruct Hin as [[E ->]|[[E ->]|[[E ->]|[[E ->]|[E ->]]]]];
    apply String.eqb_eq in E; rewrite E; cbn [String.eqb Ascii.eqb Bool.eqb];
    repeat split.
Qed.

(** The five ways through [configure]. *)
Lemma configure_cases (rf : ResourceFinder) (w : World D)
  (s : ExampleModule D) :
  let f := find rf "finger" in
  let mt := find rf "modelType" in
  let dopt := driverOpt (find rf "name") (find rf "robot") (find rf "hand") in
  let opts :=
    options (find rf "name") (find rf "robot") (find rf "hand") mt in
  let r := configure rf w s in
  let pre := [ DriverOpen dopt; DriverView "ipos"; DriverView "ienc";
               DriverView "ilim"; GetLimits (joint (state r));
               PrintfOptions "configuring options: " opts ] in
  (~ In f FingerId /\ result r = false /\
   trace r = [Printf ("unknown finger!" ++ nl)])
  \/
  (In f FingerId /\ w_driver_open w dopt = false /\ result r = false /\
   trace r = [DriverOpen dopt])
  \/
  (In f FingerId /\ w_driver_open w dopt = true /\
   (forall k, mt <> ModelKind_name k) /\ result r = false /\
   trace r = pre ++ [Printf ("unknown model type!" ++ nl)])
  \/
  (exists k, In f FingerId /\ w_driver_open w dopt = true /\
     mt = ModelKind_name k /\ w_fromProperty w k opts = false /\
     result r = false /\ model (state r) = Some k /\
     trace r = pre ++ [NewModel k; FromProperty opts; DeleteModel])
  \/
  (exists k, In f FingerId /\ w_driver_open w dopt = true /\
     mt = ModelKind_name k /\ w_fromProperty w k opts = true /\
     result r = true /\ model (state r) = Some k /\
     trace r = pre ++ [NewModel k; FromProperty opts]).
Proof.
  cbv zeta.
  run_configure. split_tests; eqb_props;
    first
      [ left; split;
        [rewrite finger_eqb_known, !String.eqb_eq; intuition congruence|];
        split; reflexivity
      | right; left; split;
        [rewrite finger_eqb_known, !String.eqb_eq; tauto|];
        repeat split; first [reflexivity | assumption]
      | right; right; left; split;
        [rewrite finger_eqb_known, !String.eqb_eq; tauto|];
        split; [reflexivity|];
        split; [intros [|]; cbn [ModelKind_name]; assumption|];
        split; reflexivity
      | right; right; right; left; exists SpringyFingersModel;
        split; [rewrite finger_eqb_known, !String.eqb_eq; tauto|];
        repeat split; first [reflexivity | assumption]
      | right; right; right; left; exists TactileFingersModel;
        split; [rewrite finger_eqb_known, !String.eqb_eq; tauto|];
        repeat split; first [reflexivity | assumption]
      | right; right; right; right; exists SpringyFingersModel;
        split; [rewrite finger_eqb_known, !String.eqb_eq; tauto|];
        repeat split; first [reflexivity | assumption]
      | right; right; right; right; exists TactileFingersModel;
        split; [rewrite finger_eqb_known, !String.eqb_eq; tauto|];
        repeat split; first [reflexivity | assumption] ].
Qed.

Lemma ModelKind_name_inj (k k' : ModelKind) :
  ModelKind_name k = ModelKind_name k' -> k = k'.
Proof. destruct k, k'; intros H; try reflexivity; discriminate H. Qed.

Ltac in_cases H :=
  cbn [In app] in H;
  repeat match type of H with
         | _ \/ _ => destruct H as [H|H]
         end;
  try discriminate H; try contradiction H.

(** X8: [configure] never closes the driver.  When it fails after the
    driver has opened, because the model type is unknown or the model
    does not load, the driver has been opened and is left open. *)
Theorem configure_never_closes_driver :
  forall (rf : ResourceFinder) (w : World D) (s : ExampleModule D),
    ~ In DriverClose (trace (configure rf w s)) /\
    (In (find rf "finger") FingerId ->
     w_driver_open w
       (driverOpt (find rf "name") (find rf "robot") (find rf "hand")) = true ->
     In (DriverOpen
           (driverOpt (find rf "name") (find rf "robot") (find rf "hand")))
        (trace (configure rf w s))).
Proof.
  intros rf w s.
  destruct (configure_cases rf w s)
    as [[Hf [_ Ht]]|[[Hf [Ho [_ Ht]]]|[[Hf [Ho [_ [_ Ht]]]]
       |[[k [Hf [Ho [_ [_ [_ [_ Ht]]]]]]]|[k [Hf [Ho [_ [_ [_ [_ Ht]]]]]]]]]]];
    rewrite Ht;
    (split;
     [ intros H; in_cases H
     | intros Hf' Ho';
       first [ left; reflexivity | congruence | contradiction ] ]).
Qed.

(** X9: [configure] creates a model exactly when the finger is known,
    the driver has opened and the model type names a model, and it
    deletes the model exactly when that model does not load its
    options. *)
Theorem configure_model_lifecycle :
  forall (rf : ResourceFinder) (w : World D) (s : ExampleModule D),
    let opened :=
      w_driver_open w
        (driverOpt (find rf "name") (find rf "robot") (find rf "hand")) in
    let opts :=
      options (find rf "name") (find rf "robot") (find rf "hand")
        (find rf "modelType") in
    (forall k : ModelKind,
       In (NewModel k) (trace (configure rf w s)) <->
       In (find rf "finger") FingerId /\ opened = true /\
       find rf "modelType" = ModelKind_name k) /\
    (In DeleteModel (trace (configure rf w s)) <->
     In (find rf "finger") FingerId /\ opened = true /\
     exists k : ModelKind,
       find rf "modelType" = ModelKind_name k /\
       w_fromProperty w k opts = false).
Proof.
  intros rf w s opened opts. subst opened opts.
  destruct (configure_cases rf w s)
    as [[Hf [_ Ht]]|[[Hf [Ho [_ Ht]]]|[[Hf [Ho [Hm [_ Ht]]]]
       |[[k [Hf [Ho [Hm [Hl [_ [_ Ht]]]]]]]|[k [Hf [Ho [Hm [Hl [_ [_ Ht]]]]]]]]]]];
    rewrite Ht; split.
  - intros k. split; [intros H; in_cases H|tauto].
  - split; [intros H; in_cases H|tauto].
  - intros k. split; [intros H; in_cases H|intros [_ [Ho' _]]; congruence].
  - split; [intros H; in_cases H|intros [_ [Ho' _]]; congruence].
  - intros k. split; [intros H; in_cases H|].
    intros [_ [_ Hk]]. exfalso. exact (Hm k Hk).
  - split; [intros H; in_cases H|].
    intros [_ [_ [k [Hk _]]]]. exfalso. exact (Hm k Hk).
  - intros k'. split.
    + intros H; in_cases H. injection H as <-. tauto.
    + intros [_ [_ Hk]]. rewrite Hm in Hk.
      apply ModelKind_name_inj in Hk. subst k'.
      cbn [In app]. tauto.
  - split.
    + intros _. split; [exact Hf|]. split; [exact Ho|].
      exists k. split; assumption.
    + intros _. cbn [In app]. tauto.
  - intros k'. split.
    + intros H; in_cases H. injection H as <-. tauto.
    + intros [_ [_ Hk]]. rewrite Hm in Hk.
      apply ModelKind_name_inj in Hk. subst k'.
      cbn [In app]. tauto.
  - split.
    + intros H; in_cases H.
    + intros [_ [_ [k' [Hk Hl']]]]. rewrite Hm in Hk.
      apply ModelKind_name_inj in Hk. subst k'. congruence.
Qed.

(** X10: a successful [configure] performs, in this order and nothing
    else: open the driver, view the three interfaces, read the limits
    of the selected joint once, print the options, create the model
    named by the model type, load the options into it. *)
Theorem configure_success_trace :
  forall (rf : ResourceFinder) (w : World D) (s : ExampleModule D),
    result (configure rf w s) = true ->
    let s1 := state (configure rf w s) in
    let opts :=
      options (find rf "name") (find rf "robot") (find rf "hand")
        (find rf "modelType") in
    exists k : ModelKind,
      find rf "modelType" = ModelKind_name k /\
      model s1 = Some k /\
      trace (configure rf w s) =
        [ DriverOpen
            (driverOpt (find rf "name") (find rf "robot") (find rf "hand"));
          DriverView "ipos"; DriverView "ienc"; DriverView "ilim";
          GetLimits (joint s1);
          PrintfOptions "configuring options: " opts;
          NewModel k;
          FromProperty opts ].
Proof.
  intros rf w s Hok s1 opts.
  destruct (configure_cases rf w s)
    as [[_ [Hr _]]|[[_ [_ [Hr _]]]|[[_ [_ [_ [Hr _]]]]
       |[[k [_ [_ [_ [_ [Hr _]]]]]]|[k [_ [_ [Hm [_ [_ [Hk Ht]]]]]]]]]]];
    try congruence.
  exists k. split; [exact Hm|]. split; [exact Hk|]. exact Ht.
Qed.

(** C9, as the code has it: [configure] compares [name], [robot] and
    [hand] with nothing and prints no message about them, but it does
    forward them.  [hand] is concatenated into the remote port name
    handed to [driver.open] and is put as [type] into the options
    handed to the model's [fromProperty]; [configure] succeeds exactly
    when the finger is known, [driver.open] succeeds on those options,
    the model type is springy or tactile and [fromProperty] succeeds on
    those options. *)
Theorem C9_hand_forwarded_unchecked :
  forall (rf : ResourceFinder) (w : World D) (s : ExampleModule D),
    let name := find rf "name" in
    let robot := find rf "robot" in
    let hand := find rf "hand" in
    let modelType := find rf "modelType" in
    let dopt : Property :=
      [ ("device", VString "remote_controlboard");
        ("remote", VString ("/" ++ robot ++ "/" ++ hand ++ "_arm"));
        ("local", VString ("/" ++ name)) ] in
    let mopt : Property :=
      [ ("name", VString (name ++ "/" ++ modelType));
        ("robot", VString robot);
        ("type", VString hand);
        ("verbose", VInt 1);
        ("thumb",  VGroup [("name", "thumb")]);
        ("index",  VGroup [("name", "index")]);
        ("middle", VGroup [("name", "middle")]);
        ("ring",   VGroup [("name", "ring")]);
        ("little", VGroup [("name", "little")]) ] in
    (result (configure rf w s) = true <->
       In (find rf "finger") FingerId /\
       w_driver_open w dopt = true /\
       (modelType = "springy" /\
        w_fromProperty w SpringyFingersModel mopt = true
        \/
        modelType = "tactile" /\
        w_fromProperty w TactileFingersModel mopt = true))
    /\
    (forall line, In (Printf line) (trace (configure rf w s)) ->
       line = ("unknown finger!" ++ nl)%string /\
       ~ In (find rf "finger") FingerId
       \/
       line = ("unknown model type!" ++ nl)%string /\
       modelType <> "springy" /\ modelType <> "tactile")
    /\
    (forall o, In (DriverOpen o) (trace (configure rf w s)) -> o = dopt)
    /\
    (forall o, In (FromProperty o) (trace (configure rf w s)) -> o = mopt)
    /\
    (In (find rf "finger") FingerId ->
     In (DriverOpen dopt) (trace (configure rf w s)))
    /\
    (In (find rf "finger") FingerId ->
     w_driver_open w dopt = true ->
     modelType = "springy" \/ modelType = "tactile" ->
     In (FromProperty mopt) (trace (configure rf w s))).
Proof.
  intros rf w s name robot hand modelType dopt mopt.
  change dopt with (driverOpt name robot hand).
  change mopt with (options name robot hand modelType).
  clear dopt mopt. subst name robot hand modelType.
  destruct (configure_result_iff rf w s) as [Hiff Hprint].
  split; [exact Hiff|]. split; [exact Hprint|].
  destruct (configure_cases rf w s)
    as [[Hf [_ Ht]]|[[Hf [Ho [_ Ht]]]|[[Hf [Ho [Hm [_ Ht]]]]
       |[[k [Hf [Ho [Hm [Hl [_ [_ Ht]]]]]]]|[k [Hf [Ho [Hm [Hl [_ [_ Ht]]]]]]]]]]];
    rewrite Ht; (split; [|split; [|split]]).
  - intros o H; in_cases H.
  - intros o H; in_cases H.
  - intros Hf'. contradiction.
  - intros Hf'. contradiction.
  - intros o H; in_cases H. injection H as <-. reflexivity.
  - intros o H; in_cases H.
  - intros _. left. reflexivity.
  - intros _ Ho'. congruence.
  - intros o H; in_cases H. injection H as <-. reflexivity.
  - intros o H; in_cases H.
  - intros _. left. reflexivity.
  - intros _ _ [Hs|Hs].
    + exfalso. exact (Hm SpringyFingersModel Hs).
    + exfalso. exact (Hm TactileFingersModel Hs).
  - intros o H; in_cases H. injection H as <-. reflexivity.
  - intros o H; in_cases H. injection H as <-. reflexivity.
  - intros _. left. reflexivity.
  - intros _ _ _. cbn [In app]. tauto.
  - intros o H; in_cases H. injection H as <-. reflexivity.
  - intros o H; in_cases H. injection H as <-. reflexivity.
  - intros _. left. reflexivity.
  - intros _ _ _. cbn [In app]. tauto.
Qed.

End ConfigurePaths.

(* ================================================================== *)
(** ** What the motor side sees *)

Section MotorSide.

Context {D : Type} {ops : DoubleOps D}.

Lemma motor_app (a b : list (event D)) : motor (a ++ b) = motor a ++ motor b.
Proof. apply filter_app. Qed.

Lemma motor_report (t : Tick D) (f : string) : motor (report t f) = [].
Proof. unfold report. destruct (t_getNode t f); reflexivity. Qed.

Lemma updateModule_same_motion (t : Tick D) (s1 s2 : ExampleModule D) :
  same_motion s1 s2 ->
  motor (trace (updateModule t s1)) = motor (trace (updateModule t s2)) /\
  same_motion (state (updateModule t s1)) (state (updateModule t s2)).
Proof.
  intros [Hc [Hmin [Hmax [Hval [Hj Hv]]]]].
  assert (Hd : forall p, deref s1 p = deref s2 p)
    by (intros p; unfold deref; rewrite Hmin, Hmax; reflexivity).
  destruct (calibrate s1) eqn:Hc1; symmetry in Hc.
  - rewrite (updateModule_calibrating s1 t Hc1),
            (updateModule_calibrating s2 t Hc).
    unfold trace, state; cbn [fst snd motor filter is_motor].
    rewrite Hj, Hv, Hval, Hd. split; [reflexivity|].
    repeat split; assumption.
  - rewrite (updateModule_scanning s1 t Hc1),
            (updateModule_scanning s2 t Hc).
    assert (Hr : reached s1 t = reached s2 t)
      by (unfold reached; rewrite Hd, Hval, Hj; reflexivity).
    unfold trace, state; cbn [fst snd].
    change (motor (GetNode ?f :: ?l)) with (motor l).
    rewrite !motor_app, !motor_report, Hr, Hj, Hval, Hd.
    split; [reflexivity|].
    destruct (reached s2 t); repeat split; try assumption; try congruence;
      cbn; congruence.
Qed.

Lemma run_loop_same_motion (ts : list (Tick D)) :
  forall s1 s2 : ExampleModule D,
    same_motion s1 s2 ->
    motor (trace (run_loop ts s1)) = motor (trace (run_loop ts s2)).
Proof.
  induction ts as [|t ts IH]; intros s1 s2 H; [reflexivity|].
  rewrite !run_loop_cons. unfold trace at 1 4; cbn [snd].
  rewrite !motor_app.
  destruct (updateModule_same_motion t s1 s2 H) as [Ht Hs].
  rewrite Ht. f_equal. apply IH. exact Hs.
Qed.

(** X12: ring and little are one finger to the motor side.  Two
    command lines that differ only in naming ring or little make
    [configure] succeed or fail alike with the same effects, and on the
    same ticks the two modules issue the same encoder reads and the
    same acceleration, speed and position commands. *)
Theorem ring_and_little_move_alike :
  forall (rf1 rf2 : ResourceFinder) (w : World D) (s : ExampleModule D)
         (ts : list (Tick D)),
    find rf1 "finger" = "ring" ->
    find rf2 "finger" = "little" ->
    find rf1 "name" = find rf2 "name" ->
    find rf1 "robot" = find rf2 "robot" ->
    find rf1 "hand" = find rf2 "hand" ->
    find rf1 "modelType" = find rf2 "modelType" ->
    result (configure rf1 w s) = result (configure rf2 w s) /\
    trace (configure rf1 w s) = trace (configure rf2 w s) /\
    motor (trace (run_loop ts (state (configure rf1 w s)))) =
    motor (trace (run_loop ts (state (configure rf2 w s)))).
Proof.
  intros rf1 rf2 w s ts H1 H2 Hn Hr Hh Hm.
  assert (Hsame : result (configure rf1 w s) = result (configure rf2 w s) /\
                  trace (configure rf1 w s) = trace (configure rf2 w s) /\
                  same_motion (state (configure rf1 w s))
                              (state (configure rf2 w s))).
  { unfold same_motion. run_configure.
    rewrite H1, H2, Hn, Hr, Hh, Hm. cbn [String.eqb Ascii.eqb Bool.eqb].
    split_tests; repeat split. }
  destruct Hsame as [Hres [Htr Hst]].
  split; [exact Hres|]. split; [exact Htr|].
  apply run_loop_same_motion. exact Hst.
Qed.

End MotorSide.

(* ================================================================== *)
(** ** The tolerance test in binary64 *)

(** The classes of a double, read off its specification. *)
Lemma binary64_is_finite_spec (x : float) :
  is_finite x =
  match Prim2SF x with
  | S754_nan | S754_infinity _ => false
  | _ => true
  end.
Proof.
  unfold is_finite, is_nan, is_infinity.
  rewrite !FloatAxioms.eqb_spec, abs_spec.
  change (Prim2SF infinity) with (S754_infinity false).
  unfold SFeqb.
  destruct (Prim2SF x) as [sx|sx| |sx mx ex]; cbn; try reflexivity.
  - destruct sx; reflexivity.
  - destruct sx; rewrite Z.compare_refl, Pos.compare_cont_refl; reflexivity.
Qed.

(** X15: in binary64 the test of line 237 only succeeds on finite
    numbers: an encoder reading or a held target that is NaN or
    infinite never makes the target flip. *)
Theorem binary64_flip_needs_finite_numbers :
  forall (s : ExampleModule float) (t : Tick float),
    reached s t = true ->
    is_finite (deref s (val s)) = true /\
    is_finite (t_getEncoder t (joint s)) = true.
Proof.
  intros s t. unfold reached. cbn [dlt fabs dsub d5 binary64].
  generalize (deref s (val s)) (t_getEncoder t (joint s)).
  intros x fb. rewrite !binary64_is_finite_spec.
  rewrite ltb_spec, abs_spec, sub_spec. unfold SFltb, SF64sub.
  change (Prim2SF 5) with (S754_finite false 5629499534213120 (-50)).
  destruct (Prim2SF x) as [sx|sx| |sx mx ex],
           (Prim2SF fb) as [sy|sy| |sy my ey];
    try (intros _; split; reflexivity);
    cbn; repeat match goal with
                | |- context [match ?b with true => _ | false => _ end] =>
                    destruct b
                end; cbn; intros H; discriminate H.
Qed.

(* ================================================================== *)
(** ** The further properties on concrete stubs *)

Lemma at_most_one_move_per_tick_witness :
  calibrate calibrating64 = true /\ ticks64 <> [] /\
  (1 <= length (moves (trace (run_loop ticks64 calibrating64))))%nat /\
  (length (moves (trace (run_loop ticks64 calibrating64))) <= 4)%nat.
Proof.
  assert (H : ticks64 <> []) by discriminate.
  split; [reflexivity|]. split; [exact H|].
  destruct (at_most_one_move_per_tick ticks64 calibrating64) as [Hle Hge].
  split; [exact (Hge eq_refl H)|exact Hle].
Defined.

Lemma out_of_reach_never_moves_witness :
  calibrate calibrating64 = true /\
  Forall (fun t' => reached calibrating64 t' = false)
         [tick64 true 45%float; tick64 true 20%float] /\
  moves (trace (run_loop
                  (tick64 true 0%float
                     :: [tick64 true 45%float; tick64 true 20%float])
                  calibrating64)) = [9%float].
Proof.
  assert (H : Forall (fun t' => reached calibrating64 t' = false)
                     [tick64 true 45%float; tick64 true 20%float])
    by (repeat constructor).
  split; [reflexivity|]. split; [exact H|].
  exact (proj1 (out_of_reach_never_moves (tick64 true 0%float)
                  [tick64 true 45%float; tick64 true 20%float]
                  calibrating64 eq_refl H)).
Defined.

Lemma binary64_flip_needs_finite_numbers_witness :
  reached scanning64 (tick64 true 8.5%float) = true /\
  is_finite 9%float = true /\ is_finite 8.5%float = true.
Proof.
  split; [reflexivity|].
  exact (binary64_flip_needs_finite_numbers scanning64
           (tick64 true 8.5%float) eq_refl).
Defined.

Lemma overlapping_bands_flip_every_tick_witness :
  calibrate narrow64 = false /\
  Forall (fun t =>
            within5 (min narrow64) (t_getEncoder t (joint narrow64)) = true /\
            within5 (max narrow64) (t_getEncoder t (joint narrow64)) = true)
         [tick64 true 5%float; tick64 true 5%float; tick64 true 5%float] /\
  length (moves (trace (run_loop
                          [tick64 true 5%float; tick64 true 5%float;
                           tick64 true 5%float]
                          narrow64))) = 3%nat.
Proof.
  assert (H : Forall (fun t =>
            within5 (min narrow64) (t_getEncoder t (joint narrow64)) = true /\
            within5 (max narrow64) (t_getEncoder t (joint narrow64)) = true)
         [tick64 true 5%float; tick64 true 5%float; tick64 true 5%float])
    by (repeat constructor).
  split; [reflexivity|]. split; [exact H|].
  exact (overlapping_bands_flip_every_tick
           [tick64 true 5%float; tick64 true 5%float; tick64 true 5%float]
           narrow64 eq_refl H).
Defined.

Lemma scanning_tick_reports_then_reads_witness :
  calibrate scanning64 = false /\
  t_getNode (tick_node64 true 45%float) (fingerName scanning64)
  = Some {| node_getName := "index"; node_getSensorsData := "(0.0 0.0)";
            node_getOutput := "0.0" |} /\
  exists tail : list (event float),
    trace (updateModule (tick_node64 true 45%float) scanning64) =
      GetNode "index" :: PrintfReport "index" "(0.0 0.0)" "0.0"
        :: GetEncoder 12 :: tail /\
    tail = [].
Proof.
  split; [reflexivity|]. split; [reflexivity|].
  destruct (scanning_tick_reports_then_reads scanning64
              (tick_node64 true 45%float)
              {| node_getName := "index";
                 node_getSensorsData := "(0.0 0.0)";
                 node_getOutput := "0.0" |} eq_refl eq_refl)
    as [tail [Ht [_ Hno]]].
  exists tail. split; [exact Ht|]. exact (Hno eq_refl).
Defined.

Lemma configure_driver_failure_witness :
  In (find (main_rf S1_args) "finger", 12) finger_joint_table /\
  w_driver_open stub_closed64
    (driverOpt (find (main_rf S1_args) "name") (find (main_rf S1_args) "robot")
       (find (main_rf S1_args) "hand")) = false /\
  result (configure (main_rf S1_args) stub_closed64
            (ExampleModule_ctor fresh64)) = false /\
  trace (configure (main_rf S1_args) stub_closed64
           (ExampleModule_ctor fresh64))
  = [DriverOpen [("device", VString "remote_controlboard");
                 ("remote", VString "/icub/right_arm");
                 ("local", VString "/percex")]].
Proof.
  assert (H : In (find (main_rf S1_args) "finger", 12) finger_joint_table)
    by (right; left; reflexivity).
  split; [exact H|]. split; [reflexivity|].
  destruct (configure_driver_failure (main_rf S1_args) stub_closed64
              (ExampleModule_ctor fresh64) 12 H eq_refl) as [Hr [Ht _]].
  split; [exact Hr|exact Ht].
Defined.

Lemma configure_never_closes_driver_witness :
  In (find (main_rf S1_args) "finger") FingerId /\
  result (configure (main_rf S1_args) stub_noload64
            (ExampleModule_ctor fresh64)) = false /\
  In (DriverOpen
        (driverOpt (find (main_rf S1_args) "name")
           (find (main_rf S1_args) "robot") (find (main_rf S1_args) "hand")))
     (trace (configure (main_rf S1_args) stub_noload64
               (ExampleModule_ctor fresh64))) /\
  ~ In DriverClose
       (trace (configure (main_rf S1_args) stub_noload64
                 (ExampleModule_ctor fresh64))).
Proof.
  assert (H : In (find (main_rf S1_args) "finger") FingerId)
    by (right; left; reflexivity).
  split; [exact H|]. split; [reflexivity|].
  destruct (configure_never_closes_driver (main_rf S1_args) stub_noload64
              (ExampleModule_ctor fresh64)) as [Hno Hopen].
  split; [exact (Hopen H eq_refl)|exact Hno].
Defined.

Lemma configure_model_lifecycle_witness :
  In DeleteModel
     (trace (configure (main_rf S1_args) stub_noload64
               (ExampleModule_ctor fresh64))) /\
  ~ In DeleteModel
       (trace (configure (main_rf S1_args) stub64
                 (ExampleModule_ctor fresh64))).
Proof.
  split.
  - apply (proj2 (proj2 (configure_model_lifecycle (main_rf S1_args)
                           stub_noload64 (ExampleModule_ctor fresh64)))).
    split; [right; left; reflexivity|]. split; [reflexivity|].
    exists TactileFingersModel. split; reflexivity.
  - intros H.
    apply (proj1 (proj2 (configure_model_lifecycle (main_rf S1_args)
                           stub64 (ExampleModule_ctor fresh64)))) in H.
    destruct H as [_ [_ [k [_ Hk]]]]. discriminate Hk.
Defined.

Lemma configure_success_trace_witness :
  result (configure (main_rf S1_args) stub64 (ExampleModule_ctor fresh64))
  = true /\
  exists k : ModelKind,
    find (main_rf S1_args) "modelType" = ModelKind_name k /\
    model (state (configure (main_rf S1_args) stub64
                    (ExampleModule_ctor fresh64))) = Some k.
Proof.
  split; [reflexivity|].
  destruct (configure_success_trace (main_rf S1_args) stub64
              (ExampleModule_ctor fresh64) eq_refl) as [k [Hm [Hk _]]].
  exists k. split; [exact Hm|exact Hk].
Defined.

Lemma ring_and_little_move_alike_witness :
  find (main_rf [("finger", "ring")]) "finger" = "ring" /\
  find (main_rf [("finger", "little")]) "finger" = "little" /\
  motor (trace (run_loop ticks64
                  (state (configure (main_rf [("finger", "ring")]) stub64
                            (ExampleModule_ctor fresh64))))) =
  motor (trace (run_loop ticks64
                  (state (configure (main_rf [("finger", "little")]) stub64
                            (ExampleModule_ctor fresh64))))).
Proof.
  split; [reflexivity|]. split; [reflexivity|].
  exact (proj2 (proj2
    (ring_and_little_move_alike (main_rf [("finger", "ring")])
       (main_rf [("finger", "little")]) stub64 (ExampleModule_ctor fresh64)
       ticks64 eq_refl eq_refl eq_refl eq_refl eq_refl eq_refl))).
Defined.

(** The claim of C9 fails on an adapter that opens only on the ports of
    the two arms.  With a known finger and a known model type the hand
    tentacle makes [configure] fail and the session end with the status
    of a configuration error, where the hand right succeeds; and the
    hand is not only part of the remote port name: it reaches the model
    as the option [type]. *)
Lemma C9_counterexample :
  In (find (main_rf [("hand", "tentacle")]) "finger") FingerId /\
  find (main_rf [("hand", "tentacle")]) "modelType" = "springy" /\
  result (configure (main_rf [("hand", "tentacle")]) stub_arms64
            (ExampleModule_ctor fresh64)) = false /\
  result (main [("hand", "tentacle")] stub_arms64 ticks64 fresh64) = 2 /\
  result (configure (main_rf [("hand", "right")]) stub_arms64
            (ExampleModule_ctor fresh64)) = true /\
  (exists o : Property,
     In (FromProperty o)
        (trace (configure (main_rf [("hand", "tentacle")]) stub64
                  (ExampleModule_ctor fresh64))) /\
     Property_find "type" o = Some (VString "tentacle")).
Proof.
  split; [right; left; reflexivity|]. split; [reflexivity|].
  split; [reflexivity|]. split; [reflexivity|]. split; [reflexivity|].
  eexists. split.
  - vm_compute. do 7 right. left. reflexivity.
  - reflexivity.
Qed.

(** C9 at the hand tentacle on an adapter that opens on any port: the
    value is accepted, and is handed to the model as [type]. *)
Lemma C9_witness :
  In (find (main_rf [("hand", "tentacle")]) "finger") FingerId /\
  result (configure (main_rf [("hand", "tentacle")]) stub64
            (ExampleModule_ctor fresh64)) = true /\
  In (DriverOpen [ ("device", VString "remote_controlboard");
                   ("remote", VString "/icub/tentacle_arm");
                   ("local", VString "/percex") ])
     (trace (configure (main_rf [("hand", "tentacle")]) stub64
               (ExampleModule_ctor fresh64))).
Proof.
  assert (Hf : In (find (main_rf [("hand", "tentacle")]) "finger") FingerId)
    by (right; left; reflexivity).
  destruct (C9_hand_forwarded_unchecked (main_rf [("hand", "tentacle")])
              stub64 (ExampleModule_ctor fresh64))
    as [Hiff [_ [_ [_ [Hopen _]]]]].
  split; [exact Hf|]. split.
  - apply (proj2 Hiff). split; [exact Hf|]. split; [reflexivity|].
    left. split; reflexivity.
  - exact (Hopen Hf).
Defined.
